(** * soft_check: the soft-assertion aggregation engine

    A shallow embedding of the Python package [soft_check]
    (check_log.py, check_raises.py, context_manager.py, plugin.py) and the
    properties of its failure log, its checked block, its
    exception-expectation checker and its pytest hooks.

    Conventions of the embedding:
    - a Python [str] is a [string] whose characters are code points below 256;
    - a Python [int] is a [Z];
    - [None]-or-int limits are [option Z];
    - module globals are records, one per module, named after the module;
      attributes that other modules assign but that the module never
      declares live in the record's [attrs] dictionary;
    - a function that can raise runs in the state-and-exception monad [M]. *)

From Stdlib Require Import ZArith String Ascii List DecimalString Lia.
From stdpp Require Import base option gmap strings.

Set Warnings "-register-all".
Local Open Scope string_scope.
Local Open Scope list_scope.

(** ** Python strings *)

Module PyStr.

(** [str.isspace] on one character, for code points below 256. *)
Definition isspace (c : ascii) : bool :=
  let n := nat_of_ascii c in
  (Nat.leb 9 n && Nat.leb n 13) || (Nat.leb 28 n && Nat.leb n 32)
  || Nat.eqb n 133 || Nat.eqb n 160.

Fixpoint lstrip (s : string) : string :=
  match s with
  | EmptyString => EmptyString
  | String c s' => if isspace c then lstrip s' else s
  end.

Fixpoint rstrip (s : string) : string :=
  match s with
  | EmptyString => EmptyString
  | String c s' =>
      match rstrip s' with
      | EmptyString => if isspace c then EmptyString else String c EmptyString
      | r => String c r
      end
  end.

(** [s.strip()] *)
Definition strip (s : string) : string := rstrip (lstrip s).

(** [bool(s)] for a string *)
Definition truthy (s : string) : bool :=
  match s with EmptyString => false | _ => true end.

(** [str(n)] for an int *)
Definition of_int (n : Z) : string := NilZero.string_of_int (Z.to_int n).

End PyStr.

(** ** Classes and exceptions *)

(** A class is known by its name and the names of its proper ancestors, the
    tail of its [__mro__]. *)
Record pyclass := PyClass { cls_name : string; cls_bases : list string }.

Definition mro (c : pyclass) : list string := cls_name c :: cls_bases c.

(** [issubclass(c, d)] for two classes: [d] is in the [__mro__] of [c]. *)
Definition issubclass_class (c d : pyclass) : bool :=
  existsb (String.eqb (cls_name d)) (mro c).

Definition object_ : pyclass := PyClass "object" [].
Definition int_ : pyclass := PyClass "int" ["object"].
Definition BaseException : pyclass := PyClass "BaseException" ["object"].
Definition Exception : pyclass :=
  PyClass "Exception" ["BaseException"; "object"].
Definition AssertionError : pyclass :=
  PyClass "AssertionError" ["Exception"; "BaseException"; "object"].
Definition TypeError : pyclass :=
  PyClass "TypeError" ["Exception"; "BaseException"; "object"].
Definition ValueError : pyclass :=
  PyClass "ValueError" ["Exception"; "BaseException"; "object"].
Definition LookupError : pyclass :=
  PyClass "LookupError" ["Exception"; "BaseException"; "object"].
Definition KeyError : pyclass :=
  PyClass "KeyError" ["LookupError"; "Exception"; "BaseException"; "object"].

(** A raised exception: its class and [str(exc_val)]. *)
Record exn := Exn { exc_type : pyclass; exc_str : string }.

(** The Python values that reach the modelled code as arguments or as
    attribute values. *)
Inductive pyobj :=
| ONone
| OBool (b : bool)
| OInt (n : Z)
| OStr (s : string)
| OClass (c : pyclass)
| OTuple (items : list pyobj).

(** What a caller passes as a failure message: [None], a [str] or an
    exception value. *)
Inductive message :=
| MNone
| MStr (s : string)
| MExc (e : exn).

(** [str(msg)] *)
Definition str (m : message) : string :=
  match m with
  | MNone => "None"
  | MStr s => s
  | MExc e => exc_str e
  end.

(** ** Outcomes and the monad of state and exceptions *)

Inductive outcome (A : Type) :=
| Normal (a : A)
| Raise (e : exn).
Arguments Normal {A} a.
Arguments Raise {A} e.

Definition M (S A : Type) : Type := S -> outcome A * S.

Section Monad.
Context {S : Type}.

Definition ret {A} (a : A) : M S A := fun s => (Normal a, s).

Definition bind {A B} (m : M S A) (k : A -> M S B) : M S B :=
  fun s =>
    match m s with
    | (Normal a, s') => k a s'
    | (Raise e, s') => (Raise e, s')
    end.

Definition raise {A} (e : exn) : M S A := fun s => (Raise e, s).

Definition gets {A} (f : S -> A) : M S A := fun s => (Normal (f s), s).

Definition modify (f : S -> S) : M S unit := fun s => (Normal tt, f s).

(** [assert cond, text] *)
Definition py_assert (cond : bool) (text : string) : M S unit :=
  if cond then ret tt else raise (Exn AssertionError text).
End Monad.

Notation "'let*' x := m 'in' k" := (bind m (fun x => k))
  (at level 10, x name, m at level 100, k at level 200,
   format "'[v' 'let*'  x  :=  m  'in' '/' k ']'").

(** ** Builtins *)

Module builtins.

(** [isinstance(o, type)] *)
Definition is_type (o : pyobj) : bool :=
  match o with
  | OClass _ => true
  | _ => false
  end.

(** [issubclass(derived, cls)] for a class [derived]: [cls] is a class or a
    tuple, possibly nested, searched from the left up to the first match;
    anything else met on the way is a [TypeError]. *)
Fixpoint issubclass (derived : pyclass) (cls : pyobj) : outcome bool :=
  match cls with
  | OClass d => Normal (issubclass_class derived d)
  | OTuple items =>
      (fix any (l : list pyobj) : outcome bool :=
         match l with
         | [] => Normal false
         | x :: l' =>
             match issubclass derived x with
             | Normal false => any l'
             | r => r
             end
         end) items
  | _ =>
      Raise (Exn TypeError
        "issubclass() arg 2 must be a class, a tuple of classes, or a union")
  end.

(** [issubclass(o, d)] for an arbitrary first argument and a class [d]. *)
Definition issubclass_of (o : pyobj) (d : pyclass) : outcome bool :=
  match o with
  | OClass c => Normal (issubclass_class c d)
  | _ => Raise (Exn TypeError "issubclass() arg 1 must be a class")
  end.

Fixpoint chars (s : string) : list pyobj :=
  match s with
  | EmptyString => []
  | String c s' => OStr (String c EmptyString) :: chars s'
  end.

(** The items a [for] loop draws from [o]. *)
Definition iter (o : pyobj) : outcome (list pyobj) :=
  match o with
  | OTuple items => Normal items
  | OStr s => Normal (chars s)
  | ONone => Raise (Exn TypeError "'NoneType' object is not iterable")
  | OBool _ => Raise (Exn TypeError "'bool' object is not iterable")
  | OInt _ => Raise (Exn TypeError "'int' object is not iterable")
  | OClass _ => Raise (Exn TypeError "'type' object is not iterable")
  end.

(** [all(f(x) for x in l)]: stops at the first false item and at the first
    exception. *)
Fixpoint all {A} (f : A -> outcome bool) (l : list A) : outcome bool :=
  match l with
  | [] => Normal true
  | x :: l' =>
      match f x with
      | Normal true => all f l'
      | r => r
      end
  end.

End builtins.

(** ** check_log.py *)


Module check_log.

Definition COLOR_RED : string := String (ascii_of_nat 27) "[31m".
Definition COLOR_RESET : string := String (ascii_of_nat 27) "[0m".

Record globals := Globals {
  SHOULD_USE_COLOR : bool;
  _STOP_ON_FAIL : bool;
  _DEFAULT_MAX_FAIL : option Z;
  _DEFAULT_MAX_REPORT : option Z;
  _DEFAULT_MAX_TB : option Z;
  _MAX_FAIL : option Z;
  _MAX_REPORT : option Z;
  _MAX_TB : option Z;
  _NUM_FAILURES : Z;
  _failures : list string;
  attrs : gmap string pyobj
}.

(** The module right after import (lines 37-51). *)
Definition initial : globals :=
  Globals false false None None None None None None 0 [] ∅.

Definition set_SHOULD_USE_COLOR (v : bool) (g : globals) : globals :=
  Globals v (_STOP_ON_FAIL g) (_DEFAULT_MAX_FAIL g) (_DEFAULT_MAX_REPORT g)
    (_DEFAULT_MAX_TB g) (_MAX_FAIL g) (_MAX_REPORT g) (_MAX_TB g)
    (_NUM_FAILURES g) (_failures g) (attrs g).

Definition set_STOP_ON_FAIL (v : bool) (g : globals) : globals :=
  Globals (SHOULD_USE_COLOR g) v (_DEFAULT_MAX_FAIL g) (_DEFAULT_MAX_REPORT g)
    (_DEFAULT_MAX_TB g) (_MAX_FAIL g) (_MAX_REPORT g) (_MAX_TB g)
    (_NUM_FAILURES g) (_failures g) (attrs g).

Definition set_DEFAULT_MAX_FAIL (v : option Z) (g : globals) : globals :=
  Globals (SHOULD_USE_COLOR g) (_STOP_ON_FAIL g) v (_DEFAULT_MAX_REPORT g)
    (_DEFAULT_MAX_TB g) (_MAX_FAIL g) (_MAX_REPORT g) (_MAX_TB g)
    (_NUM_FAILURES g) (_failures g) (attrs g).

Definition set_DEFAULT_MAX_REPORT (v : option Z) (g : globals) : globals :=
  Globals (SHOULD_USE_COLOR g) (_STOP_ON_FAIL g) (_DEFAULT_MAX_FAIL g) v
    (_DEFAULT_MAX_TB g) (_MAX_FAIL g) (_MAX_REPORT g) (_MAX_TB g)
    (_NUM_FAILURES g) (_failures g) (attrs g).

Definition set_DEFAULT_MAX_TB (v : option Z) (g : globals) : globals :=
  Globals (SHOULD_USE_COLOR g) (_STOP_ON_FAIL g) (_DEFAULT_MAX_FAIL g)
    (_DEFAULT_MAX_REPORT g) v (_MAX_FAIL g) (_MAX_REPORT g) (_MAX_TB g)
    (_NUM_FAILURES g) (_failures g) (attrs g).

Definition set_MAX_FAIL (v : option Z) (g : globals) : globals :=
  Globals (SHOULD_USE_COLOR g) (_STOP_ON_FAIL g) (_DEFAULT_MAX_FAIL g)
    (_DEFAULT_MAX_REPORT g) (_DEFAULT_MAX_TB g) v (_MAX_REPORT g) (_MAX_TB g)
    (_NUM_FAILURES g) (_failures g) (attrs g).

Definition set_MAX_REPORT (v : option Z) (g : globals) : globals :=
  Globals (SHOULD_USE_COLOR g) (_STOP_ON_FAIL g) (_DEFAULT_MAX_FAIL g)
    (_DEFAULT_MAX_REPORT g) (_DEFAULT_MAX_TB g) (_MAX_FAIL g) v (_MAX_TB g)
    (_NUM_FAILURES g) (_failures g) (attrs g).

Definition set_MAX_TB (v : option Z) (g : globals) : globals :=
  Globals (SHOULD_USE_COLOR g) (_STOP_ON_FAIL g) (_DEFAULT_MAX_FAIL g)
    (_DEFAULT_MAX_REPORT g) (_DEFAULT_MAX_TB g) (_MAX_FAIL g) (_MAX_REPORT g) v
    (_NUM_FAILURES g) (_failures g) (attrs g).

Definition set_NUM_FAILURES (v : Z) (g : globals) : globals :=
  Globals (SHOULD_USE_COLOR g) (_STOP_ON_FAIL g) (_DEFAULT_MAX_FAIL g)
    (_DEFAULT_MAX_REPORT g) (_DEFAULT_MAX_TB g) (_MAX_FAIL g) (_MAX_REPORT g)
    (_MAX_TB g) v (_failures g) (attrs g).

Definition set_failures (v : list string) (g : globals) : globals :=
  Globals (SHOULD_USE_COLOR g) (_STOP_ON_FAIL g) (_DEFAULT_MAX_FAIL g)
    (_DEFAULT_MAX_REPORT g) (_DEFAULT_MAX_TB g) (_MAX_FAIL g) (_MAX_REPORT g)
    (_MAX_TB g) (_NUM_FAILURES g) v (attrs g).

Definition set_attrs (v : gmap string pyobj) (g : globals) : globals :=
  Globals (SHOULD_USE_COLOR g) (_STOP_ON_FAIL g) (_DEFAULT_MAX_FAIL g)
    (_DEFAULT_MAX_REPORT g) (_DEFAULT_MAX_TB g) (_MAX_FAIL g) (_MAX_REPORT g)
    (_MAX_TB g) (_NUM_FAILURES g) (_failures g) v.

(** [def clear_failures()] *)
Definition clear_failures (g : globals) : globals :=
  let g := set_failures [] g in
  let g := set_NUM_FAILURES 0 g in
  let g := set_MAX_FAIL (_DEFAULT_MAX_FAIL g) g in
  let g := set_MAX_REPORT (_DEFAULT_MAX_REPORT g) g in
  set_MAX_TB (_DEFAULT_MAX_TB g) g.

(** [def get_failures()] *)
Definition get_failures (g : globals) : list string := _failures g.

(** [def any_failures()]: [bool(get_failures())], the truth value of a list. *)
Definition any_failures (g : globals) : bool :=
  match get_failures g with
  | [] => false
  | _ :: _ => true
  end.

(** [def log_failure(msg="", check_str="")] *)
Definition log_failure (msg : message) (check_str : string) : M globals unit :=
  let* _ := modify (fun g => set_NUM_FAILURES (_NUM_FAILURES g + 1) g) in
  let msg := PyStr.strip (str msg) in
  let msg := if PyStr.truthy check_str then msg +:+ ": " +:+ check_str else msg in
  let* max_report := gets _MAX_REPORT in
  let* num := gets _NUM_FAILURES in
  let* _ :=
    if match max_report with
       | None => true
       | Some r => Z.leb num r
       end
    then
      let* color := gets SHOULD_USE_COLOR in
      let msg := if color then COLOR_RED +:+ msg +:+ COLOR_RESET else msg in
      modify (fun g => set_failures (_failures g ++ [msg]) g)
    else ret tt in
  let* max_fail := gets _MAX_FAIL in
  let* num := gets _NUM_FAILURES in
  let* _ :=
    match max_fail with
    | Some mf =>
        if negb (Z.eqb mf 0) && Z.geb num mf
        then
          let assert_msg :=
            "pytest-check max fail of " +:+ PyStr.of_int num +:+ " reached" in
          py_assert (Z.ltb num mf) assert_msg
        else ret tt
    | None => ret tt
    end in
  let* stop := gets _STOP_ON_FAIL in
  if stop then py_assert false "Stopping on first failure" else ret tt.

(** A limit is [None] or an int; a flag is a bool. *)
Definition as_limit (v : pyobj) : option (option Z) :=
  match v with
  | ONone => Some None
  | OInt n => Some (Some n)
  | _ => None
  end.

Definition as_flag (v : pyobj) : option bool :=
  match v with
  | OBool b => Some b
  | _ => None
  end.

Definition as_int (v : pyobj) : option Z :=
  match v with
  | OInt n => Some n
  | _ => None
  end.

(** The names the module binds without a typed field in [globals]. *)
Definition other_names : list string :=
  ["COLOR_RED"; "COLOR_RESET"; "_failures"; "clear_failures"; "any_failures";
   "get_failures"; "log_failure"].

(** [check_log.<name> = v], an assignment made from another module.  A
    declared global is rebound; any other name becomes a new attribute of
    the module, which none of its functions reads.  [None]: the assignment
    is outside the embedding (a declared name given a value of another
    type than the one the record holds). *)
Definition setattr (name : string) (v : pyobj) (g : globals) : option globals :=
  if String.eqb name "SHOULD_USE_COLOR" then
    (fun b => set_SHOULD_USE_COLOR b g) <$> as_flag v
  else if String.eqb name "_STOP_ON_FAIL" then
    (fun b => set_STOP_ON_FAIL b g) <$> as_flag v
  else if String.eqb name "_DEFAULT_MAX_FAIL" then
    (fun l => set_DEFAULT_MAX_FAIL l g) <$> as_limit v
  else if String.eqb name "_DEFAULT_MAX_REPORT" then
    (fun l => set_DEFAULT_MAX_REPORT l g) <$> as_limit v
  else if String.eqb name "_DEFAULT_MAX_TB" then
    (fun l => set_DEFAULT_MAX_TB l g) <$> as_limit v
  else if String.eqb name "_MAX_FAIL" then
    (fun l => set_MAX_FAIL l g) <$> as_limit v
  else if String.eqb name "_MAX_REPORT" then
    (fun l => set_MAX_REPORT l g) <$> as_limit v
  else if String.eqb name "_MAX_TB" then
    (fun l => set_MAX_TB l g) <$> as_limit v
  else if String.eqb name "_NUM_FAILURES" then
    (fun n => set_NUM_FAILURES n g) <$> as_int v
  else if existsb (String.eqb name) other_names then None
  else Some (set_attrs (<[name := v]> (attrs g)) g).

End check_log.


(** ** The globals of the other modules *)

Module check_raises.

Record globals := Globals {
  _STOP_ON_FAIL : bool;
  attrs : gmap string pyobj
}.

Definition initial : globals := Globals false ∅.

(** An instance of [class CheckRaisesContext]. *)
Record CheckRaisesContext := Build_CheckRaisesContext {
  expected_excs : list pyobj;
  msg : option string
}.

Definition setattr (name : string) (v : pyobj) (g : globals) : option globals :=
  if String.eqb name "_STOP_ON_FAIL" then
    (fun b => Globals b (attrs g)) <$> check_log.as_flag v
  else if existsb (String.eqb name) ["log_failure"; "raises"; "CheckRaisesContext"]
  then None
  else Some (Globals (_STOP_ON_FAIL g) (<[name := v]> (attrs g))).

End check_raises.

Module context_manager.

(** An instance of [class CheckContextManager]. *)
Record CheckContextManager := Build_CheckContextManager {
  msg : option string
}.

Record globals := Globals {
  _STOP_ON_FAIL : bool;
  check : CheckContextManager;
  attrs : gmap string pyobj
}.

(** [_STOP_ON_FAIL = False] and [check = CheckContextManager()]. *)
Definition initial : globals :=
  Globals false (Build_CheckContextManager None) ∅.

Definition setattr (name : string) (v : pyobj) (g : globals) : option globals :=
  if String.eqb name "_STOP_ON_FAIL" then
    (fun b => Globals b (check g) (attrs g)) <$> check_log.as_flag v
  else if existsb (String.eqb name)
            ["check_log"; "log_failure"; "CheckContextManager"; "check"]
  then None
  else Some (Globals (_STOP_ON_FAIL g) (check g) (<[name := v]> (attrs g))).

End context_manager.

Module pseudo_traceback.

(** The module declares no data of its own. *)
Record globals := Globals {
  attrs : gmap string pyobj
}.

Definition initial : globals := Globals ∅.

Definition setattr (name : string) (v : pyobj) (g : globals) : option globals :=
  if existsb (String.eqb name) ["inspect"; "os"; "get_full_context"]
  then None
  else Some (Globals (<[name := v]> (attrs g))).

End pseudo_traceback.

(** ** The interpreter state: the four modules *)

Record world := World {
  w_check_log : check_log.globals;
  w_check_raises : check_raises.globals;
  w_context_manager : context_manager.globals;
  w_pseudo_traceback : pseudo_traceback.globals
}.

Definition initial_world : world :=
  World check_log.initial check_raises.initial context_manager.initial
    pseudo_traceback.initial.

Definition set_check_log (g : check_log.globals) (w : world) : world :=
  World g (w_check_raises w) (w_context_manager w) (w_pseudo_traceback w).

Definition set_check_raises (g : check_raises.globals) (w : world) : world :=
  World (w_check_log w) g (w_context_manager w) (w_pseudo_traceback w).

Definition set_context_manager (g : context_manager.globals) (w : world) : world :=
  World (w_check_log w) (w_check_raises w) g (w_pseudo_traceback w).

Definition set_pseudo_traceback (g : pseudo_traceback.globals) (w : world) : world :=
  World (w_check_log w) (w_check_raises w) (w_context_manager w) g.

(** A function of check_log run from another module. *)
Definition in_check_log {A} (m : M check_log.globals A) : M world A :=
  fun w =>
    let (r, g) := m (w_check_log w) in
    (r, set_check_log g w).

(** An outcome that does not touch the state. *)
Definition pure {S A} (r : outcome A) : M S A := fun s => (r, s).

(** ** The [with] statement *)

(** [bool(r)] for what [__exit__] returns: [None], [True] or [False]. *)
Definition exit_truthy (r : option bool) : bool := default false r.

(** [with <enter> as a: <body a>].  [__exit__] receives the exception of the
    body, if any; a true result suppresses it, a false one lets it go on;
    what [__exit__] itself raises replaces it. *)
Definition with_stmt {S A} (enter : M S A)
    (exit : option exn -> M S (option bool)) (body : A -> M S unit) : M S unit :=
  let* a := enter in
  fun s =>
    match body a s with
    | (Normal _, s') =>
        (let* _ := exit None in ret tt) s'
    | (Raise e, s') =>
        (let* r := exit (Some e) in
         if exit_truthy r then ret tt else raise e) s'
    end.

(** ** check_raises.py *)

Module CheckRaisesContext.

Import check_raises.

(** [def __init__(self, *expected_excs, msg=None)] *)
Definition __init__ (expected_excs : list pyobj) (msg : option string)
  : CheckRaisesContext :=
  Build_CheckRaisesContext expected_excs msg.

(** [def __enter__(self)] *)
Definition __enter__ (self : CheckRaisesContext) : M world CheckRaisesContext :=
  ret self.

(** [self.msg if self.msg else exc_val] *)
Definition failure_message (self : CheckRaisesContext) (exc : option exn)
  : message :=
  match msg self with
  | Some m =>
      if PyStr.truthy m then MStr m
      else match exc with Some e => MExc e | None => MNone end
  | None => match exc with Some e => MExc e | None => MNone end
  end.

(** [def __exit__(self, exc_type, exc_val, exc_tb)] *)
Definition __exit__ (self : CheckRaisesContext) (exc : option exn)
  : M world (option bool) :=
  let* matched :=
    match exc with
    | None => ret false
    | Some e => pure (builtins.issubclass (exc_type e) (OTuple (expected_excs self)))
    end in
  if matched then ret (Some true)
  else
    let* stop := gets (fun w => _STOP_ON_FAIL (w_check_raises w)) in
    if negb stop then
      let* _ := in_check_log (check_log.log_failure (failure_message self exc) "") in
      ret (Some true)
    else ret (Some false).

End CheckRaisesContext.

(** Keyword arguments, in call order; a value is [None] or a [str]. *)
Definition kwargs := list (string * option string).

(** [kwargs.pop(key, None)] *)
Fixpoint kwargs_pop (key : string) (kw : kwargs) : option string * kwargs :=
  match kw with
  | [] => (None, [])
  | (k, v) :: kw' =>
      if String.eqb k key then (v, kw')
      else let (r, kw'') := kwargs_pop key kw' in (r, (k, v) :: kw'')
  end.

(** [repr] of a string free of quotes, backslashes and control characters. *)
Definition repr_str (s : string) : string := "'" +:+ s +:+ "'".

Definition repr_value (v : option string) : string :=
  match v with
  | None => "None"
  | Some s => repr_str s
  end.

Fixpoint repr_items (kw : kwargs) : string :=
  match kw with
  | [] => ""
  | [(k, v)] => repr_str k +:+ ": " +:+ repr_value v
  | (k, v) :: kw' => repr_str k +:+ ": " +:+ repr_value v +:+ ", " +:+ repr_items kw'
  end.

(** [f"{kwargs}"] *)
Definition repr_kwargs (kw : kwargs) : string := "{" +:+ repr_items kw +:+ "}".

(** The first positional argument after the expected exception, [args[0]]:
    a callable, given by what calling it with the remaining arguments does,
    or another object. *)
Inductive positional :=
| PCallable (call : list pyobj -> kwargs -> M world unit)
| PObject (o : pyobj).

(** [def raises(expected_exception, *args, **kwargs)]; [args] is [None] for
    no positional argument and [Some (args[0], args[1:])] otherwise.  The
    result is the new context, or [None] after the direct call. *)
Definition raises (expected_exception : pyobj)
    (args : option (positional * list pyobj)) (kw : kwargs)
  : M world (option check_raises.CheckRaisesContext) :=
  let excepted_exceptions :=
    if builtins.is_type expected_exception
    then OTuple [expected_exception]
    else expected_exception in
  let* items := pure (builtins.iter excepted_exceptions) in
  let* valid :=
    pure (builtins.all
            (fun exc =>
               if builtins.is_type exc then Normal true
               else builtins.issubclass_of exc BaseException)
            items) in
  let* _ := py_assert valid "" in
  let (msg, kw) := kwargs_pop "msg" kw in
  match args with
  | None =>
      let* _ :=
        py_assert (match kw with [] => true | _ => false end)
          ("Unexpected kwargs for soft_check.raises: " +:+ repr_kwargs kw) in
      ret (Some (CheckRaisesContext.__init__ [expected_exception] msg))
  | Some (func, rest) =>
      let* _ :=
        py_assert (match func with PCallable _ => true | PObject _ => false end)
          "" in
      let ctx := CheckRaisesContext.__init__ [expected_exception] msg in
      let* _ :=
        with_stmt (CheckRaisesContext.__enter__ ctx)
          (CheckRaisesContext.__exit__ ctx)
          (fun _ =>
             match func with
             | PCallable call => call rest kw
             | PObject _ => ret tt
             end) in
      ret None
  end.

(** ** context_manager.py *)

Module CheckContextManager.

Import context_manager.

(** [self.msg], for the module's instance [check]. *)
Definition self_msg (w : world) : option string :=
  msg (check (w_context_manager w)).

(** [self.msg = m] *)
Definition set_self_msg (m : option string) : M world unit :=
  modify (fun w =>
    set_context_manager
      (Globals (_STOP_ON_FAIL (w_context_manager w))
         (Build_CheckContextManager m) (attrs (w_context_manager w))) w).

Definition newline : string := String (ascii_of_nat 10) EmptyString.

(** [def __enter__(self)] *)
Definition __enter__ : M world unit := ret tt.

(** [def __exit__(self, exc_type, exc_val, exc_tb)] *)
Definition __exit__ (exc : option exn) : M world (option bool) :=
  match exc with
  | Some e =>
      if issubclass_class (exc_type e) AssertionError then
        let* stop := gets (fun w => _STOP_ON_FAIL (w_context_manager w)) in
        if stop then
          let* _ := set_self_msg None in
          ret None
        else
          let* m := gets self_msg in
          let* _ :=
            match m with
            | Some m =>
                in_check_log
                  (check_log.log_failure (MStr (m +:+ newline +:+ str (MExc e))) "")
            | None => in_check_log (check_log.log_failure (MExc e) "")
            end in
          let* _ := set_self_msg None in
          ret (Some true)
      else
        let* _ := set_self_msg None in
        ret None
  | None =>
      let* _ := set_self_msg None in
      ret None
  end.

(** [def __call__(self, msg=None)] *)
Definition __call__ (m : option string) : M world unit :=
  set_self_msg m.

(** [def set_max_fail(self, max_failures)] *)
Definition set_max_fail (max_failures : option Z) : M world unit :=
  modify (fun w => set_check_log (check_log.set_MAX_FAIL max_failures (w_check_log w)) w).

(** [def set_max_report(self, max_reported_failures)] *)
Definition set_max_report (max_reported_failures : option Z) : M world unit :=
  modify (fun w =>
    set_check_log (check_log.set_MAX_REPORT max_reported_failures (w_check_log w)) w).

(** [def set_max_tb(self, max_tb_limit)] *)
Definition set_max_tb (max_tb_limit : option Z) : M world unit :=
  modify (fun w => set_check_log (check_log.set_MAX_TB max_tb_limit (w_check_log w)) w).

(** [with check: <body>] *)
Definition with_check (body : M world unit) : M world unit :=
  with_stmt __enter__ __exit__ (fun _ => body).

(** [with check(m): <body>] *)
Definition with_check_msg (m : option string) (body : M world unit) : M world unit :=
  let* _ := __call__ m in
  with_stmt __enter__ __exit__ (fun _ => body).

End CheckContextManager.

(** ** check_functions.py *)

Module check_functions.

(** [def equal(first_value, second_value, msg="")], at ints. *)
Definition equal (first_value second_value : Z) (msg : string) : M world bool :=
  if Z.eqb first_value second_value then ret true
  else
    let* _ :=
      in_check_log
        (check_log.log_failure
           (MStr ("check " +:+ PyStr.of_int first_value +:+ " == "
                  +:+ PyStr.of_int second_value))
           msg) in
    ret false.

(** [def assert_equal(first_value, second_value, msg="")], at ints.  The text
    of the [AssertionError] is the one the plain [assert] statement gives;
    where pytest rewrites the asserts of this module, as __init__.py asks it
    to, the text goes on with a line showing the comparison. *)
Definition assert_equal (first_value second_value : Z) (msg : string)
  : M world unit :=
  py_assert (Z.eqb first_value second_value) msg.

(** [def not_equal(first_value, second_value, msg="")], at ints. *)
Definition not_equal (first_value second_value : Z) (msg : string) : M world bool :=
  if negb (Z.eqb first_value second_value) then ret true
  else
    let* _ :=
      in_check_log
        (check_log.log_failure
           (MStr ("check " +:+ PyStr.of_int first_value +:+ " != "
                  +:+ PyStr.of_int second_value))
           msg) in
    ret false.

(** [str(value)] for a bool *)
Definition str_bool (b : bool) : string := if b then "True" else "False".

(** [def is_true(value, msg="")], at bools. *)
Definition is_true (value : bool) (msg : string) : M world bool :=
  if value then ret true
  else
    let* _ := in_check_log (check_log.log_failure (MStr msg) "") in
    ret false.

(** [def is_false(value, msg="")], at bools. *)
Definition is_false (value : bool) (msg : string) : M world bool :=
  if negb value then ret true
  else
    let* _ :=
      in_check_log
        (check_log.log_failure
           (MStr ("check not bool(" +:+ str_bool value +:+ ")")) msg) in
    ret false.

(** [def greater(first_value, second_value, msg="")], at ints. *)
Definition greater (first_value second_value : Z) (msg : string) : M world bool :=
  if Z.gtb first_value second_value then ret true
  else
    let* _ :=
      in_check_log
        (check_log.log_failure
           (MStr ("check " +:+ PyStr.of_int first_value +:+ " > "
                  +:+ PyStr.of_int second_value))
           msg) in
    ret false.

(** [def greater_equal(first_value, second_value, msg="")], at ints. *)
Definition greater_equal (first_value second_value : Z) (msg : string)
  : M world bool :=
  if Z.geb first_value second_value then ret true
  else
    let* _ :=
      in_check_log
        (check_log.log_failure
           (MStr ("check " +:+ PyStr.of_int first_value +:+ " >= "
                  +:+ PyStr.of_int second_value))
           msg) in
    ret false.

(** [def less(first_value, second_value, msg="")], at ints. *)
Definition less (first_value second_value : Z) (msg : string) : M world bool :=
  if Z.ltb first_value second_value then ret true
  else
    let* _ :=
      in_check_log
        (check_log.log_failure
           (MStr ("check " +:+ PyStr.of_int first_value +:+ " < "
                  +:+ PyStr.of_int second_value))
           msg) in
    ret false.

(** [def less_equal(first_value, second_value, msg="")], at ints. *)
Definition less_equal (first_value second_value : Z) (msg : string)
  : M world bool :=
  if Z.leb first_value second_value then ret true
  else
    let* _ :=
      in_check_log
        (check_log.log_failure
           (MStr ("check " +:+ PyStr.of_int first_value +:+ " <= "
                  +:+ PyStr.of_int second_value))
           msg) in
    ret false.

(** [def between(value_to_check, lower_bound, upper_bound, msg="",
    lower_bound_included=False, upper_bound_included=False)], at ints. *)
Definition between (value_to_check lower_bound upper_bound : Z) (msg : string)
    (lower_bound_included upper_bound_included : bool) : M world bool :=
  if lower_bound_included && upper_bound_included then
    if Z.leb lower_bound value_to_check && Z.leb value_to_check upper_bound
    then ret true
    else
      let* _ :=
        in_check_log
          (check_log.log_failure
             (MStr ("check " +:+ PyStr.of_int lower_bound +:+ " <= "
                    +:+ PyStr.of_int value_to_check +:+ " <= "
                    +:+ PyStr.of_int upper_bound))
             msg) in
      ret false
  else if lower_bound_included then
    if Z.leb lower_bound value_to_check && Z.ltb value_to_check upper_bound
    then ret true
    else
      let* _ :=
        in_check_log
          (check_log.log_failure
             (MStr ("check " +:+ PyStr.of_int lower_bound +:+ " <= "
                    +:+ PyStr.of_int value_to_check +:+ " < "
                    +:+ PyStr.of_int upper_bound))
             msg) in
      ret false
  else if upper_bound_included then
    if Z.ltb lower_bound value_to_check && Z.leb value_to_check upper_bound
    then ret true
    else
      let* _ :=
        in_check_log
          (check_log.log_failure
             (MStr ("check " +:+ PyStr.of_int lower_bound +:+ " < "
                    +:+ PyStr.of_int value_to_check +:+ " <= "
                    +:+ PyStr.of_int upper_bound))
             msg) in
      ret false
  else
    if Z.ltb lower_bound value_to_check && Z.ltb value_to_check upper_bound
    then ret true
    else
      let* _ :=
        in_check_log
          (check_log.log_failure
             (MStr ("check " +:+ PyStr.of_int lower_bound +:+ " < "
                    +:+ PyStr.of_int value_to_check +:+ " < "
                    +:+ PyStr.of_int upper_bound))
             msg) in
      ret false.

(** [def check_func(func)]: the wrapper it returns, applied. *)
Definition check_func (func : M world unit) : M world bool :=
  fun w =>
    match func w with
    | (Normal _, w') => (Normal true, w')
    | (Raise e, w') =>
        if issubclass_class (exc_type e) AssertionError
        then (let* _ := in_check_log (check_log.log_failure (MExc e) "") in
              ret false) w'
        else (Raise e, w')
    end.

End check_functions.

(** ** plugin.py *)

Module plugin.

(** What [pytest_configure] reads from [config]. *)
Record Config := Build_Config {
  color : string;                 (* config.option.color *)
  maxfail : Z;                    (* config.getvalue("maxfail") *)
  tbstyle : string;               (* config.getvalue("tbstyle") *)
  check_max_fail : option Z;      (* --check-max-fail *)
  check_max_report : option Z;    (* --check-max-report *)
  check_max_tb : option Z;        (* --check-max-tb *)
  check_no_tb : bool              (* --check-no-tb *)
}.

Definition of_limit (l : option Z) : pyobj :=
  match l with
  | None => ONone
  | Some n => OInt n
  end.

Definition assign_check_log (name : string) (v : pyobj) (w : world) : option world :=
  g ← check_log.setattr name v (w_check_log w); Some (set_check_log g w).

Definition assign_check_raises (name : string) (v : pyobj) (w : world) : option world :=
  g ← check_raises.setattr name v (w_check_raises w); Some (set_check_raises g w).

Definition assign_context_manager (name : string) (v : pyobj) (w : world)
  : option world :=
  g ← context_manager.setattr name v (w_context_manager w);
  Some (set_context_manager g w).

Definition assign_pseudo_traceback (name : string) (v : pyobj) (w : world)
  : option world :=
  g ← pseudo_traceback.setattr name v (w_pseudo_traceback w);
  Some (set_pseudo_traceback g w).

(** [def pytest_configure(config)]; [isatty] is [sys.stdout.isatty()].  The
    deprecation warning is not modelled.  [None]: an assignment outside the
    embedding. *)
Definition pytest_configure (isatty : bool) (config : Config) (w : world)
  : option world :=
  let should_use_color :=
    (isatty && String.eqb (color config) "auto") || String.eqb (color config) "yes" in
  w ← assign_check_log "should_use_color" (OBool should_use_color) w;
  let stop_on_fail := Z.eqb (maxfail config) 1 in
  w ← assign_context_manager "_stop_on_fail" (OBool stop_on_fail) w;
  w ← assign_check_raises "_stop_on_fail" (OBool stop_on_fail) w;
  w ← assign_check_log "_stop_on_fail" (OBool stop_on_fail) w;
  w ← assign_pseudo_traceback "_traceback_style" (OStr (tbstyle config)) w;
  w ← assign_check_log "_default_max_fail" (of_limit (check_max_fail config)) w;
  w ← assign_check_log "_default_max_report" (of_limit (check_max_report config)) w;
  w ← assign_check_log "_default_max_tb" (of_limit (check_max_tb config)) w;
  if check_no_tb config
  then assign_check_log "_default_max_tb" (OInt 0) w
  else Some w.

(** Lines 26-27 of [pytest_runtest_makereport]: read the stored messages,
    then reset the log.  [clear_failures] binds a new list, so the one read
    keeps its items. *)
Definition drain (w : world) : list string * world :=
  let failures := check_log.get_failures (w_check_log w) in
  (failures, set_check_log (check_log.clear_failures (w_check_log w)) w).

(** [sep.join(l)] *)
Fixpoint join (sep : string) (l : list string) : string :=
  match l with
  | [] => ""
  | [x] => x
  | x :: l' => x +:+ sep +:+ join sep l'
  end.

(** The fields of the test report the hook writes. *)
Record TestReport := Build_TestReport {
  outcome_ : string;
  longrepr : option string;
  wasxfail : option string
}.

(** [def pytest_runtest_makereport(item, call)], after the [yield];
    [xfailed] is the reason held by [item._store[xfailed_key]], if any.  The
    result is the report and the new [call.excinfo], if set. *)
Definition pytest_runtest_makereport (xfailed : option string)
    (report : TestReport) (w : world) : (TestReport * option exn) * world :=
  let (failures, w) := drain w in
  match failures with
  | [] => ((report, None), w)
  | _ :: _ =>
      let text := join CheckContextManager.newline
                    [join CheckContextManager.newline failures] in
      let report :=
        match xfailed with
        | Some reason => Build_TestReport "skipped" (Some text) (Some reason)
        | None => Build_TestReport "failed" (Some text) (wasxfail report)
        end in
      ((report, Some (Exn AssertionError text)), w)
  end.

End plugin.

(** ** A test as a sequence of recorded failures *)

(** The arguments of one call to [log_failure]. *)
Definition call := (message * string)%type.

(** The calls one after the other; the first that raises ends the run, as
    it ends the test. *)
Fixpoint log_failures (calls : list call) : M check_log.globals unit :=
  match calls with
  | [] => ret tt
  | (msg, check_str) :: calls' =>
      let* _ := check_log.log_failure msg check_str in
      log_failures calls'
  end.

(** ** What one call to [log_failure] does, in closed form *)

Module LogFailure.

Import check_log.

(** The text built from the two arguments. *)
Definition display (msg : message) (check_str : string) : string :=
  let text := PyStr.strip (str msg) in
  if PyStr.truthy check_str then text +:+ ": " +:+ check_str else text.

(** The text as stored, in red when colour is on. *)
Definition paint (g : globals) (text : string) : string :=
  if SHOULD_USE_COLOR g then COLOR_RED +:+ text +:+ COLOR_RESET else text.

(** The next failure is within the reporting cap. *)
Definition under_cap (g : globals) : bool :=
  match _MAX_REPORT g with
  | None => true
  | Some r => Z.leb (_NUM_FAILURES g + 1) r
  end.

(** The log after the next failure. *)
Definition recorded (msg : message) (check_str : string) (g : globals) : globals :=
  set_failures
    (if under_cap g then _failures g ++ [paint g (display msg check_str)]
     else _failures g)
    (set_NUM_FAILURES (_NUM_FAILURES g + 1) g).

(** The next failure reaches [max_fail]. *)
Definition max_fail_reached (g : globals) : bool :=
  match _MAX_FAIL g with
  | Some mf => negb (Z.eqb mf 0) && Z.leb mf (_NUM_FAILURES g + 1)
  | None => false
  end.

Definition max_fail_error (n : Z) : exn :=
  Exn AssertionError ("pytest-check max fail of " +:+ PyStr.of_int n +:+ " reached").

Definition stop_error : exn := Exn AssertionError "Stopping on first failure".

(** The escalation the next failure sets off, if any. *)
Definition escalation (g : globals) : option exn :=
  if max_fail_reached g then Some (max_fail_error (_NUM_FAILURES g + 1))
  else if _STOP_ON_FAIL g then Some stop_error
  else None.

Definition result (g : globals) : outcome unit :=
  match escalation g with
  | Some e => Raise e
  | None => Normal tt
  end.

End LogFailure.

(** The items of [l] a cap of [r] retains. *)
Definition capped {A} (r : option Z) (l : list A) : list A :=
  match r with
  | None => l
  | Some n => take (Z.to_nat n) l
  end.

(** A cap that lets at least one message through. *)
Definition cap_admits_one (r : option Z) : bool :=
  match r with
  | None => true
  | Some n => Z.leb 1 n
  end.

(** The log after the calls, whether or not some of them raised: a call
    that escalates still leaves its failure in the log. *)
Fixpoint after_failures (calls : list call) (g : check_log.globals)
  : check_log.globals :=
  match calls with
  | [] => g
  | (msg, check_str) :: calls' =>
      after_failures calls' (snd (check_log.log_failure msg check_str g))
  end.

(** The message a call leaves in a log whose colour flag is that of [g]. *)
Definition stored_text (g : check_log.globals) (c : call) : string :=
  LogFailure.paint g (LogFailure.display (fst c) (snd c)).

(** A test that sets the reporting cap and then records the failures. *)
Definition soft_failures (r : option Z) (calls : list call) : M world unit :=
  let* _ := CheckContextManager.set_max_report r in
  in_check_log (log_failures calls).

(** The arguments [raises] turns down: what is neither a class nor an
    iterable of classes only. *)
Definition rejected (expected_exception : pyobj) : bool :=
  match expected_exception with
  | OClass _ => false
  | OTuple items => negb (forallb builtins.is_type items)
  | OStr s => PyStr.truthy s
  | ONone | OBool _ | OInt _ => true
  end.

(** Expected kinds made of exception classes only: a subclass of
    [BaseException], or a tuple of such classes, the empty tuple included. *)
Definition exception_kinds (expected_exception : pyobj) : bool :=
  match expected_exception with
  | OClass c => issubclass_class c BaseException
  | OTuple items =>
      forallb
        (fun item =>
           match item with
           | OClass c => issubclass_class c BaseException
           | _ => false
           end)
        items
  | _ => false
  end.

(** The keyword arguments that carry a message, or none. *)
Definition msg_kwargs (msg : option string) : kwargs :=
  match msg with
  | Some m => [("msg", Some m)]
  | None => []
  end.

(** [with ctx: <body>] for an exception-expectation context. *)
Definition with_raises (ctx : check_raises.CheckRaisesContext) (body : M world unit)
  : M world unit :=
  with_stmt (CheckRaisesContext.__enter__ ctx) (CheckRaisesContext.__exit__ ctx)
    (fun _ => body).

(** The world with one failure recorded by [log_failure msg ""], and how
    the call ends. *)
Definition record_failure (msg : message) (w : world) : outcome unit * world :=
  (LogFailure.result (w_check_log w),
   set_check_log (LogFailure.recorded msg "" (w_check_log w)) w).

(** The log is as an escalation leaves it: stop-on-first-failure is on,
    or the counter has reached a [max_fail] that is set and not 0. *)
Definition escalated (g : check_log.globals) : bool :=
  check_log._STOP_ON_FAIL g
  || match check_log._MAX_FAIL g with
     | Some mf => negb (Z.eqb mf 0) && Z.leb mf (check_log._NUM_FAILURES g)
     | None => false
     end.

(** What a checked block passes to [log_failure] for the failure [e]. *)
Definition block_message (w : world) (e : exn) : message :=
  match CheckContextManager.self_msg w with
  | Some m => MStr (m +:+ CheckContextManager.newline +:+ exc_str e)
  | None => MExc e
  end.

(** The world with the pending message of [check] set to [None]. *)
Definition msg_cleared (w : world) : world :=
  snd (CheckContextManager.set_self_msg None w).

(** [v] lies between [lo] and [hi], each bound counted in or not. *)
Definition in_interval (v lo hi : Z) (lo_included hi_included : bool) : bool :=
  (if lo_included then Z.leb lo v else Z.ltb lo v)
  && (if hi_included then Z.leb v hi else Z.ltb v hi).

(** A soft check: from every state it either passes and leaves the state
    as it is, or has [log_failure] record one failure under some text and
    then returns [False], unless that recording escalates. *)
Definition soft_check (c : M world bool) : Prop :=
  forall w,
    c w = (Normal true, w)
    \/ exists msg check_str,
         c w = (let* _ := in_check_log (check_log.log_failure msg check_str) in
                ret false) w.

(** The limits a test may override before or between its checks. *)
Definition with_limits (max_fail max_report max_tb : option Z)
    (g : check_log.globals) : check_log.globals :=
  check_log.set_MAX_TB max_tb
    (check_log.set_MAX_REPORT max_report (check_log.set_MAX_FAIL max_fail g)).

(** * Properties *)

(** ** The failure log *)

Section LogFailureFacts.

Import check_log LogFailure.

Local Ltac stop_cases stop := destruct stop; reflexivity.

Local Ltac max_fail_cases mf n stop :=
  destruct mf as [k|]; simpl;
  [ rewrite Z.geb_leb; destruct (Z.eqb k 0); simpl;
    [ stop_cases stop
    | let Hk := fresh "Hk" in
      destruct (Z.leb k (n + 1)) eqn:Hk; simpl;
      [ apply Z.leb_le in Hk;
        rewrite (proj2 (Z.ltb_ge (n + 1) k) Hk); reflexivity
      | stop_cases stop ] ]
  | stop_cases stop ].

(** One call to [log_failure]: the log it leaves and how it ends. *)
Lemma log_failure_run (msg : message) (check_str : string) (g : globals) :
  log_failure msg check_str g = (result g, recorded msg check_str g).
Proof.
  unfold log_failure, result, escalation, recorded, max_fail_reached, under_cap,
    paint, display, bind, gets, modify, ret, py_assert, raise, max_fail_error,
    stop_error.
  destruct g as [col stop dmf dmr dmt mf mr mt n fs at_]; simpl.
  destruct mr as [r|]; simpl.
  - destruct (Z.leb (n + 1) r); simpl; max_fail_cases mf n stop.
  - max_fail_cases mf n stop.
Qed.

(** [log_failure] changes the counter and the stored messages only. *)
Lemma recorded_limits (msg : message) (check_str : string) (g : globals) :
  let g' := recorded msg check_str g in
  _MAX_FAIL g' = _MAX_FAIL g /\ _MAX_REPORT g' = _MAX_REPORT g
  /\ _MAX_TB g' = _MAX_TB g /\ _STOP_ON_FAIL g' = _STOP_ON_FAIL g
  /\ SHOULD_USE_COLOR g' = SHOULD_USE_COLOR g
  /\ _NUM_FAILURES g' = (_NUM_FAILURES g + 1)%Z.
Proof. repeat split. Qed.

(** The limits and flags stay as they are through any number of calls, and
    the counter grows by one per call, as long as none of them raises. *)
Lemma log_failures_below_max_fail (K : Z) (calls : list call) (g : globals) :
  _MAX_FAIL g = Some K -> _STOP_ON_FAIL g = false ->
  (_NUM_FAILURES g + Z.of_nat (length calls) < K)%Z ->
  exists g', log_failures calls g = (Normal tt, g')
             /\ _MAX_FAIL g' = Some K /\ _STOP_ON_FAIL g' = false
             /\ _NUM_FAILURES g' = (_NUM_FAILURES g + Z.of_nat (length calls))%Z.
Proof.
  revert g. induction calls as [|[msg check_str] calls IH]; intros g Hmf Hstop Hlt.
  - exists g. simpl. repeat split; try assumption. lia.
  - simpl length in Hlt. simpl. unfold bind. rewrite log_failure_run.
    assert (Hres : result g = Normal tt).
    { unfold result, escalation, max_fail_reached. rewrite Hmf, Hstop.
      replace (Z.leb K (_NUM_FAILURES g + 1)) with false
        by (symmetry; apply Z.leb_gt; lia).
      rewrite andb_false_r. reflexivity. }
    rewrite Hres.
    destruct (IH (recorded msg check_str g)) as (g' & Hrun & Hmf' & Hstop' & Hn');
      try assumption.
    { simpl. lia. }
    exists g'. repeat split; try assumption.
    rewrite Hn'. simpl. lia.
Qed.

End LogFailureFacts.

Section MaxFail.

Import check_log LogFailure.

(** C7: with [max_fail] = K >= 1 and stop-on-first-failure off, a test that
    starts with an empty counter records its first K-1 failures without any
    escalation, and the K-th call to [log_failure] raises the
    [AssertionError] whose text is "pytest-check max fail of K reached". *)
Theorem max_fail_escalates_on_kth_failure
    (K : Z) (g : globals) (calls : list call) (msg : message) (check_str : string) :
  (1 <= K)%Z ->
  _MAX_FAIL g = Some K ->
  _NUM_FAILURES g = 0%Z ->
  _STOP_ON_FAIL g = false ->
  Z.of_nat (length calls) = (K - 1)%Z ->
  exists g1 g2,
    log_failures calls g = (Normal tt, g1)
    /\ log_failure msg check_str g1
       = (Raise (Exn AssertionError
                   ("pytest-check max fail of " +:+ PyStr.of_int K +:+ " reached")),
          g2).
Proof.
  intros HK Hmf Hn Hstop Hlen.
  destruct (log_failures_below_max_fail K calls g) as (g1 & Hrun & Hmf1 & _ & Hn1);
    try assumption; try lia.
  exists g1, (recorded msg check_str g1). split; [exact Hrun|].
  rewrite log_failure_run. f_equal.
  unfold result, escalation, max_fail_reached. rewrite Hmf1.
  replace (_NUM_FAILURES g1 + 1)%Z with K by lia.
  replace (Z.eqb K 0) with false by (symmetry; apply Z.eqb_neq; lia).
  rewrite Z.leb_refl. reflexivity.
Qed.

Lemma max_fail_escalates_on_kth_failure_witness :
  exists g1 g2,
    log_failures [(MStr "first", ""); (MStr "second", "")]
      (set_MAX_FAIL (Some 3%Z) initial) = (Normal tt, g1)
    /\ log_failure (MStr "third") "" g1
       = (Raise (Exn AssertionError
                   ("pytest-check max fail of " +:+ PyStr.of_int 3 +:+ " reached")),
          g2).
Proof.
  apply (max_fail_escalates_on_kth_failure 3 (set_MAX_FAIL (Some 3%Z) initial)
           [(MStr "first", ""); (MStr "second", "")] (MStr "third") "");
    [ lia | reflexivity | reflexivity | reflexivity | reflexivity ].
Defined.

(** C10: when the K-th failure sets off the [max_fail] escalation, the
    state the [AssertionError] leaves behind already has the counter at K and,
    if K is within [max_report] (or no cap is set), the K-th message at the
    end of the stored messages. *)
Theorem max_fail_escalation_follows_recording
    (K mf : Z) (g : globals) (msg : message) (check_str : string) :
  _NUM_FAILURES g = (K - 1)%Z ->
  _MAX_FAIL g = Some mf ->
  mf <> 0%Z ->
  (mf <= K)%Z ->
  exists g',
    log_failure msg check_str g = (Raise (max_fail_error K), g')
    /\ _NUM_FAILURES g' = K
    /\ (match _MAX_REPORT g with
        | None => True
        | Some r => (K <= r)%Z
        end ->
        _failures g' = (_failures g ++ [paint g (display msg check_str)])%list).
Proof.
  intros Hn Hmf Hnz Hle.
  exists (recorded msg check_str g). rewrite log_failure_run.
  repeat split.
  - f_equal. unfold result, escalation, max_fail_reached. rewrite Hmf, Hn.
    replace (K - 1 + 1)%Z with K by lia.
    replace (Z.eqb mf 0) with false by (symmetry; apply Z.eqb_neq; exact Hnz).
    replace (Z.leb mf K) with true by (symmetry; apply Z.leb_le; exact Hle).
    reflexivity.
  - simpl. lia.
  - intros Hcap. unfold recorded, under_cap. simpl.
    destruct (_MAX_REPORT g) as [r|]; [|reflexivity].
    replace (Z.leb (_NUM_FAILURES g + 1) r) with true
      by (symmetry; apply Z.leb_le; lia).
    reflexivity.
Qed.

Lemma max_fail_escalation_follows_recording_witness :
  exists g',
    log_failure (MStr "check 1 == 2") "second"
      (set_NUM_FAILURES 1 (set_failures ["first"] (set_MAX_FAIL (Some 2%Z) initial)))
    = (Raise (max_fail_error 2), g')
    /\ _NUM_FAILURES g' = 2%Z
    /\ (True -> _failures g' = ["first"; "check 1 == 2: second"]).
Proof.
  apply (max_fail_escalation_follows_recording 2 2
           (set_NUM_FAILURES 1 (set_failures ["first"] (set_MAX_FAIL (Some 2%Z) initial)))
           (MStr "check 1 == 2") "second");
    [ reflexivity | reflexivity | lia | lia ].
Defined.

End MaxFail.

Section ReportingCap.

Import check_log LogFailure.

Lemma any_failures_true (g : globals) :
  any_failures g = true <-> _failures g <> [].
Proof.
  unfold any_failures, get_failures. destruct (_failures g); split; intros H;
    try discriminate; try reflexivity; congruence.
Qed.

Lemma after_failures_invariant (r : option Z) (calls : list call) (g : globals) :
  _MAX_REPORT g = r ->
  (0 <= _NUM_FAILURES g)%Z ->
  (any_failures g = true <-> (0 < _NUM_FAILURES g)%Z /\ cap_admits_one r = true) ->
  let g' := after_failures calls g in
  any_failures g' = true <-> (0 < _NUM_FAILURES g')%Z /\ cap_admits_one r = true.
Proof.
  revert g. induction calls as [|[msg check_str] calls IH]; intros g Hr Hn Hinv.
  - exact Hinv.
  - simpl. rewrite log_failure_run. simpl. apply IH; clear IH.
    + exact Hr.
    + simpl. lia.
    + rewrite any_failures_true in *. unfold recorded, under_cap. rewrite Hr.
      simpl. destruct r as [n|]; simpl in *.
      * destruct (Z.leb (_NUM_FAILURES g + 1) n) eqn:Hcap.
        -- apply Z.leb_le in Hcap. split.
           ++ intros _. split; [lia|]. apply Z.leb_le. lia.
           ++ intros _. destruct (_failures g); discriminate.
        -- apply Z.leb_gt in Hcap. rewrite Hinv. split.
           ++ intros [_ H1]. split; [lia|exact H1].
           ++ intros [_ H1]. split; [|exact H1]. apply Z.leb_le in H1. lia.
      * split.
        -- intros _. split; [lia|reflexivity].
        -- intros _. destruct (_failures g); discriminate.
Qed.

(** C1, as the code has it: after a reset, an optional override of
    [max_report] and any number of recorded failures, [any_failures] is true
    exactly when the counter is positive and the cap lets at least one
    message through (it is unset or at least 1); it looks at the stored
    messages, not at the counter. *)
Theorem any_failures_iff_message_stored
    (g0 : globals) (r : option Z) (calls : list call) :
  let g := after_failures calls (set_MAX_REPORT r (clear_failures g0)) in
  any_failures g = true <-> (0 < _NUM_FAILURES g)%Z /\ cap_admits_one r = true.
Proof.
  apply after_failures_invariant.
  - reflexivity.
  - simpl. lia.
  - simpl. split; [discriminate|]. intros [H _]. lia.
Qed.

(** C1 fails as stated: under a cap of 0 a recorded failure is counted and
    [any_failures] stays false. *)
Lemma any_failures_false_with_counted_failure :
  let g := snd (log_failure (MStr "check 1 == 2") ""
                  (set_MAX_REPORT (Some 0%Z) (clear_failures initial))) in
  _NUM_FAILURES g = 1%Z /\ any_failures g = false.
Proof. split; reflexivity. Qed.


Lemma capped_snoc {A} (r : option Z) (l : list A) (x : A) :
  capped r (l ++ [x])
  = if match r with
       | None => true
       | Some n => Z.leb (Z.of_nat (length l) + 1) n
       end
    then capped r l ++ [x] else capped r l.
Proof.
  destruct r as [n|]; simpl; [|reflexivity].
  destruct (Z.leb (Z.of_nat (length l) + 1) n) eqn:Hcap.
  - apply Z.leb_le in Hcap.
    rewrite !take_ge; [reflexivity| |]; rewrite ?length_app; simpl; lia.
  - apply Z.leb_gt in Hcap. apply take_app_le. lia.
Qed.

Lemma capped_nonempty {A} (r : option Z) (l : list A) :
  capped r l <> [] <-> l <> [] /\ cap_admits_one r = true.
Proof.
  destruct r as [n|]; simpl.
  - destruct l as [|x l]; simpl.
    + rewrite take_nil. split; [congruence|]. intros [H _]. congruence.
    + destruct (Z.leb 1 n) eqn:Hn.
      * apply Z.leb_le in Hn. destruct (Z.to_nat n) eqn:Hk; [lia|].
        simpl. split; [auto|discriminate].
      * apply Z.leb_gt in Hn. replace (Z.to_nat n) with 0%nat by lia.
        simpl. split; [congruence|]. intros [_ H]. discriminate.
  - split; [auto|]. intros [H _]. exact H.
Qed.

(** Without [max_fail] and stop-on-first-failure no call raises, every call
    is counted and the stored messages are the capped texts, in call order. *)
Lemma log_failures_capped (g0 : globals) (calls done : list call) (g : globals) :
  _MAX_FAIL g = None -> _STOP_ON_FAIL g = false ->
  SHOULD_USE_COLOR g = SHOULD_USE_COLOR g0 ->
  _NUM_FAILURES g = Z.of_nat (length done) ->
  _failures g = capped (_MAX_REPORT g) (map (stored_text g0) done) ->
  exists g',
    log_failures calls g = (Normal tt, g')
    /\ _NUM_FAILURES g' = Z.of_nat (length (done ++ calls))
    /\ _failures g' = capped (_MAX_REPORT g) (map (stored_text g0) (done ++ calls)).
Proof.
  revert done g.
  induction calls as [|[msg check_str] calls IH]; intros done g Hmf Hstop Hcol Hn Hfs.
  - exists g. rewrite app_nil_r. repeat split; assumption.
  - simpl. unfold bind. rewrite log_failure_run.
    assert (Hres : result g = Normal tt).
    { unfold result, escalation, max_fail_reached. rewrite Hmf, Hstop. reflexivity. }
    rewrite Hres.
    destruct (IH (done ++ [(msg, check_str)]) (recorded msg check_str g))
      as (g' & Hrun & Hn' & Hfs'); try assumption.
    + rewrite length_app. simpl. lia.
    + simpl. rewrite map_app. cbn [map]. rewrite capped_snoc, length_map.
      unfold under_cap. rewrite Hn, Hfs.
      unfold stored_text at 2 4. unfold paint. cbn [fst snd]. rewrite Hcol.
      reflexivity.
    + exists g'. rewrite <- app_assoc in Hn', Hfs'. simpl in Hn', Hfs'.
      repeat split; assumption.
Qed.

(** C8, as the code has it: in a test that starts from the hook's reset,
    sets the cap to [r] and records N failures, with no [max_fail] and
    stop-on-first-failure off, no call raises; the counter ends at N; the
    hook then reads the messages of the calls in call order, all N of them
    when [r] is unset and the first [r] of them (none for [r <= 0]) when it
    is set; and [any_failures] is true only if N > 0 and [r] is unset or at
    least 1. *)
Theorem drain_returns_capped_messages
    (w0 : world) (r : option Z) (calls : list call) :
  _DEFAULT_MAX_FAIL (w_check_log w0) = None ->
  _STOP_ON_FAIL (w_check_log w0) = false ->
  exists w1,
    soft_failures r calls (snd (plugin.drain w0)) = (Normal tt, w1)
    /\ _NUM_FAILURES (w_check_log w1) = Z.of_nat (length calls)
    /\ fst (plugin.drain w1) = capped r (map (stored_text (w_check_log w0)) calls)
    /\ length (fst (plugin.drain w1))
       = match r with
         | None => length calls
         | Some n => Nat.min (Z.to_nat n) (length calls)
         end
    /\ (any_failures (w_check_log w1) = true
        <-> calls <> [] /\ cap_admits_one r = true)
    /\ _NUM_FAILURES (w_check_log (snd (plugin.drain w1))) = 0%Z
    /\ _failures (w_check_log (snd (plugin.drain w1))) = [].
Proof.
  intros Hmf Hstop.
  set (g := set_MAX_REPORT r (clear_failures (w_check_log w0))).
  destruct (log_failures_capped (w_check_log w0) calls [] g)
    as (g' & Hrun & Hn & Hfs); try reflexivity; try assumption.
  { destruct r; simpl; rewrite ?take_nil; reflexivity. }
  simpl in Hn, Hfs.
  exists (set_check_log g' (snd (plugin.drain w0))).
  assert (Hsoft : soft_failures r calls (snd (plugin.drain w0))
                  = (Normal tt, set_check_log g' (snd (plugin.drain w0)))).
  { unfold soft_failures, bind, CheckContextManager.set_max_report, modify,
      in_check_log. simpl. fold g. rewrite Hrun. reflexivity. }
  split; [exact Hsoft|]. simpl. unfold get_failures.
  split; [exact Hn|]. split; [exact Hfs|]. split.
  - rewrite Hfs. destruct r as [n|]; simpl.
    + rewrite length_take, length_map. reflexivity.
    + apply length_map.
  - split; [|split; reflexivity].
    rewrite any_failures_true, Hfs, capped_nonempty.
    split; intros [H1 H2]; (split; [|exact H2]).
    + intros ->. apply H1. reflexivity.
    + destruct calls; [congruence|discriminate].
Qed.

Lemma drain_returns_capped_messages_witness :
  exists w1,
    soft_failures (Some 1%Z)
      [(MStr "check 1 == 2", ""); (MStr "check 3 == 5", "should match")]
      (snd (plugin.drain initial_world)) = (Normal tt, w1)
    /\ _NUM_FAILURES (w_check_log w1) = 2%Z
    /\ fst (plugin.drain w1) = ["check 1 == 2"]
    /\ length (fst (plugin.drain w1)) = 1%nat
    /\ (any_failures (w_check_log w1) = true
        <-> [(MStr "check 1 == 2", ""); (MStr "check 3 == 5", "should match")] <> []
            /\ true = true)
    /\ _NUM_FAILURES (w_check_log (snd (plugin.drain w1))) = 0%Z
    /\ _failures (w_check_log (snd (plugin.drain w1))) = [].
Proof.
  apply (drain_returns_capped_messages initial_world (Some 1%Z)
           [(MStr "check 1 == 2", ""); (MStr "check 3 == 5", "should match")]);
    reflexivity.
Defined.

(** C8 fails as stated: with the cap set to 0 and one failure recorded
    (N = 1 > 0 = max_report), the counter is 1, no call raised, and
    [any_failures] is false. *)
Lemma any_failures_false_past_zero_cap :
  exists w1,
    soft_failures (Some 0%Z) [(MStr "check 1 == 2", "")]
      (snd (plugin.drain initial_world)) = (Normal tt, w1)
    /\ _NUM_FAILURES (w_check_log w1) = 1%Z
    /\ any_failures (w_check_log w1) = false.
Proof. eexists. repeat split. Qed.

End ReportingCap.

(** ** The exception-expectation checker *)

Section CheckRaises.

Import check_log LogFailure CheckRaisesContext.

Lemma in_check_log_log_failure (msg : message) (w : world) :
  in_check_log (log_failure msg "") w = record_failure msg w.
Proof. unfold in_check_log, record_failure. rewrite log_failure_run. reflexivity. Qed.

(** The exact type is a match. *)
Lemma issubclass_class_refl (c : pyclass) : issubclass_class c c = true.
Proof. unfold issubclass_class, mro. simpl. rewrite String.eqb_refl. reflexivity. Qed.

(** Against one class, and against a tuple of classes, the match is the
    class test, on the class or on some member of the tuple. *)
Lemma issubclass_one_class (c k : pyclass) :
  builtins.issubclass c (OTuple [OClass k]) = Normal (issubclass_class c k).
Proof. simpl. destruct (issubclass_class c k); reflexivity. Qed.

Lemma issubclass_tuple_of_classes (c : pyclass) (ks : list pyclass) :
  builtins.issubclass c (OTuple [OTuple (map OClass ks)])
  = Normal (existsb (issubclass_class c) ks).
Proof.
  simpl.
  assert (H : (fix any (l : list pyobj) : outcome bool :=
                 match l with
                 | [] => Normal false
                 | x :: l' =>
                     match builtins.issubclass c x with
                     | Normal false => any l'
                     | r => r
                     end
                 end) (map OClass ks)
              = Normal (existsb (issubclass_class c) ks)).
  { induction ks as [|k ks IH]; simpl; [reflexivity|].
    destruct (issubclass_class c k); simpl; [reflexivity|exact IH]. }
  rewrite H. destruct (existsb (issubclass_class c) ks); reflexivity.
Qed.

(** C2, as the code has it: when the body of the scope raises an exception
    whose class matches the expected kinds, the scope suppresses it and
    leaves the log as it is; when it does not match, the exception goes on
    unchanged and unrecorded only if the module's stop-on-first-failure flag
    is set; otherwise it is recorded as one soft failure, under the custom
    message or else its own text, and suppressed unless that recording
    escalates. *)
Theorem raises_scope_on_exception
    (self : check_raises.CheckRaisesContext) (body : M world unit) (w w1 : world)
    (e : exn) (matched : bool) :
  body w = (Raise e, w1) ->
  builtins.issubclass (exc_type e) (OTuple (check_raises.expected_excs self)) = Normal matched ->
  with_raises self body w
  = if matched then (Normal tt, w1)
    else if check_raises._STOP_ON_FAIL (w_check_raises w1) then (Raise e, w1)
    else record_failure (failure_message self (Some e)) w1.
Proof.
  intros Hbody Hmatch.
  unfold with_raises, with_stmt, bind, __enter__, ret. rewrite Hbody.
  unfold __exit__, pure, bind, gets, ret, raise. rewrite Hmatch.
  destruct matched; [reflexivity|].
  destruct (check_raises._STOP_ON_FAIL (w_check_raises w1)); simpl; [reflexivity|].
  rewrite in_check_log_log_failure. unfold record_failure.
  destruct (result (w_check_log w1)) as [[]|]; reflexivity.
Qed.

Lemma raises_scope_on_exception_witness :
  with_raises (__init__ [OClass LookupError] None)
    (raise (Exn KeyError "'id'")) initial_world
  = (Normal tt, initial_world).
Proof.
  apply (raises_scope_on_exception (__init__ [OClass LookupError] None)
           (raise (Exn KeyError "'id'")) initial_world initial_world
           (Exn KeyError "'id'") true);
    reflexivity.
Defined.

(** C2 fails as stated: a [TypeError] raised in a scope that expects
    [ValueError] does not leave the scope; it is stored as a soft failure. *)
Lemma raises_scope_swallows_unexpected_exception :
  with_raises (__init__ [OClass ValueError] None)
    (raise (Exn TypeError "unsupported operand")) initial_world
  = (Normal tt,
     set_check_log
       (set_failures ["unsupported operand"] (set_NUM_FAILURES 1 initial))
       initial_world).
Proof. reflexivity. Qed.

(** C5: when the body of the scope raises nothing, the scope records one
    failure, under the custom message or else the text of [None], if the
    module's stop-on-first-failure flag is off; if the flag is on, the scope
    ends normally and leaves the log untouched. *)
Theorem raises_scope_without_exception
    (self : check_raises.CheckRaisesContext) (body : M world unit) (w w1 : world) :
  body w = (Normal tt, w1) ->
  with_raises self body w
  = if check_raises._STOP_ON_FAIL (w_check_raises w1) then (Normal tt, w1)
    else record_failure (failure_message self None) w1.
Proof.
  intros Hbody.
  unfold with_raises, with_stmt, bind, __enter__, ret. rewrite Hbody.
  unfold __exit__, pure, bind, gets, ret, raise.
  destruct (check_raises._STOP_ON_FAIL (w_check_raises w1)); simpl; [reflexivity|].
  rewrite in_check_log_log_failure. unfold record_failure.
  destruct (result (w_check_log w1)) as [[]|]; reflexivity.
Qed.

(** With every stop-on-first-failure flag set, a scope that expects
    [ValueError] around a body that raises nothing ends normally: nothing is
    raised and nothing is recorded. *)
Lemma raises_scope_without_exception_witness :
  let w := World (set_STOP_ON_FAIL true initial) (check_raises.Globals true ∅)
             (context_manager.Globals true
                (context_manager.Build_CheckContextManager None) ∅)
             pseudo_traceback.initial in
  with_raises (__init__ [OClass ValueError] None) (ret tt) w = (Normal tt, w).
Proof.
  intros w.
  apply (raises_scope_without_exception (__init__ [OClass ValueError] None)
           (ret tt) w w).
  reflexivity.
Defined.


End CheckRaises.

(** ** The checked block *)

Section CheckedBlock.

Import check_log LogFailure CheckContextManager.

Lemma set_self_msg_run (m : option string) (w : world) :
  exists w',
    set_self_msg m w = (Normal tt, w')
    /\ w_check_log w' = w_check_log w
    /\ self_msg w' = m
    /\ context_manager._STOP_ON_FAIL (w_context_manager w')
       = context_manager._STOP_ON_FAIL (w_context_manager w).
Proof. eexists. repeat split. Qed.

(** A call to [log_failure] that raises leaves the log [escalated], and
    what it raises is an [AssertionError]. *)
Lemma log_failure_raise_escalated
    (msg : message) (check_str : string) (g g' : globals) (e : exn) :
  log_failure msg check_str g = (Raise e, g') ->
  escalated g' = true /\ exc_type e = AssertionError.
Proof.
  rewrite log_failure_run. intros H. injection H as Hres Hg. subst g'.
  unfold result, escalation, max_fail_reached in Hres. unfold escalated. simpl.
  destruct (_MAX_FAIL g) as [mf|].
  - destruct (negb (Z.eqb mf 0) && Z.leb mf (_NUM_FAILURES g + 1)).
    + injection Hres as <-. split; [apply orb_true_r|reflexivity].
    + destruct (_STOP_ON_FAIL g); [|discriminate].
      injection Hres as <-. split; reflexivity.
  - destruct (_STOP_ON_FAIL g); [|discriminate].
    injection Hres as <-. split; reflexivity.
Qed.

(** In an [escalated] log the next failure escalates too. *)
Lemma escalated_escalation (g : globals) :
  escalated g = true ->
  exists e, escalation g = Some e /\ exc_type e = AssertionError.
Proof.
  unfold escalated, escalation, max_fail_reached. intros H.
  destruct (_MAX_FAIL g) as [mf|].
  - destruct (Z.eqb mf 0); simpl in *.
    + rewrite orb_false_r in H. rewrite H. eexists. split; reflexivity.
    + destruct (Z.leb mf (_NUM_FAILURES g)) eqn:Hle.
      * apply Z.leb_le in Hle.
        replace (Z.leb mf (_NUM_FAILURES g + 1)) with true
          by (symmetry; apply Z.leb_le; lia).
        eexists. split; reflexivity.
      * rewrite orb_false_r in H. rewrite H.
        destruct (Z.leb mf (_NUM_FAILURES g + 1)); eexists; split; reflexivity.
  - rewrite orb_false_r in H. rewrite H. eexists. split; reflexivity.
Qed.

(** C6, as the code has it: an escalation that leaves the body of a checked
    block always leaves the block as an assertion-style failure.  With the
    stop flag of context_manager set it is the same exception and the log is
    untouched.  With the flag off the block records the escalation as one
    more soft failure, and what leaves the block is the new escalation which
    that recording sets off. *)
Theorem escalation_through_checked_block
    (body : M world unit) (w w1 : world) (e : exn) :
  body w = (Raise e, w1) ->
  issubclass_class (exc_type e) AssertionError = true ->
  escalated (w_check_log w1) = true ->
  exists e' w2,
    with_check body w = (Raise e', w2)
    /\ issubclass_class (exc_type e') AssertionError = true
    /\ if context_manager._STOP_ON_FAIL (w_context_manager w1)
       then e' = e /\ w_check_log w2 = w_check_log w1
       else escalation (w_check_log w1) = Some e'
            /\ w_check_log w2 = recorded (block_message w1 e) "" (w_check_log w1)
            /\ _NUM_FAILURES (w_check_log w2)
               = (_NUM_FAILURES (w_check_log w1) + 1)%Z.
Proof.
  intros Hbody Hcls Hesc.
  unfold with_check, with_stmt, bind, __enter__, ret. rewrite Hbody.
  unfold __exit__. rewrite Hcls. unfold bind, gets.
  destruct (context_manager._STOP_ON_FAIL (w_context_manager w1)) eqn:Hstop.
  - exists e. eexists. split; [reflexivity|]. split; [exact Hcls|].
    split; reflexivity.
  - destruct (escalated_escalation _ Hesc) as (e' & He' & Hty).
    exists e', (set_check_log (recorded (block_message w1 e) "" (w_check_log w1)) w1).
    split.
    + unfold block_message, self_msg.
      destruct (context_manager.msg (context_manager.check (w_context_manager w1)));
        unfold in_check_log; rewrite log_failure_run; unfold result; rewrite He';
        reflexivity.
    + split; [rewrite Hty; reflexivity|]. split; [exact He'|].
      split; reflexivity.
Qed.

Lemma escalation_through_checked_block_witness :
  exists e' w2,
    with_check (in_check_log (log_failure (MStr "check 1 == 2") ""))
      (set_check_log (set_MAX_FAIL (Some 1%Z) initial) initial_world)
    = (Raise e', w2)
    /\ issubclass_class (exc_type e') AssertionError = true
    /\ escalation (set_NUM_FAILURES 1 (set_failures ["check 1 == 2"]
                     (set_MAX_FAIL (Some 1%Z) initial))) = Some e'
    /\ w_check_log w2
       = recorded (MExc (max_fail_error 1)) ""
           (set_NUM_FAILURES 1 (set_failures ["check 1 == 2"]
              (set_MAX_FAIL (Some 1%Z) initial)))
    /\ _NUM_FAILURES (w_check_log w2) = 2%Z.
Proof.
  apply (escalation_through_checked_block
           (in_check_log (log_failure (MStr "check 1 == 2") ""))
           (set_check_log (set_MAX_FAIL (Some 1%Z) initial) initial_world)
           (set_check_log
              (set_NUM_FAILURES 1 (set_failures ["check 1 == 2"]
                 (set_MAX_FAIL (Some 1%Z) initial))) initial_world)
           (max_fail_error 1));
    reflexivity.
Defined.

(** C6 fails as stated: with [max_fail] = 2, the second failing check in a
    checked block escalates; the block records that escalation as a third
    failure, stores its text, and raises a new one. *)
Lemma checked_block_records_escalation :
  with_check
    (let* _ := check_functions.equal 1 2 "" in
     let* _ := check_functions.equal 3 4 "" in
     ret tt)
    (set_check_log (set_MAX_FAIL (Some 2%Z) initial) initial_world)
  = (Raise (Exn AssertionError "pytest-check max fail of 3 reached"),
     set_check_log
       (set_NUM_FAILURES 3
          (set_failures
             ["check 1 == 2"; "check 3 == 4"; "pytest-check max fail of 2 reached"]
             (set_MAX_FAIL (Some 2%Z) initial)))
       initial_world).
Proof. reflexivity. Qed.


(** C9, as the code has it: when the body of a checked block raises
    nothing, the block leaves the log as it is and clears the pending
    message.  When the body raises an assertion-style failure, the stop flag
    of context_manager is off and recording a failure does not escalate
    ([max_fail] not reached, stop flag of check_log off), the block counts
    one failure, whose text is the pending message, a newline and the
    failure text (the failure text alone without a pending message),
    trimmed; stores it if the reporting cap allows; ends normally; and
    clears the pending message. *)
Theorem checked_block_exit
    (body : M world unit) (w w1 : world) (r : outcome unit) :
  body w = (r, w1) ->
  match r with
  | Normal _ =>
      exists w2,
        with_check body w = (Normal tt, w2)
        /\ w_check_log w2 = w_check_log w1
        /\ self_msg w2 = None
  | Raise e =>
      issubclass_class (exc_type e) AssertionError = true ->
      context_manager._STOP_ON_FAIL (w_context_manager w1) = false ->
      escalation (w_check_log w1) = None ->
      let g := w_check_log w1 in
      let text :=
        PyStr.strip
          match self_msg w1 with
          | Some m => m +:+ newline +:+ exc_str e
          | None => exc_str e
          end in
      exists w2,
        with_check body w = (Normal tt, w2)
        /\ _NUM_FAILURES (w_check_log w2) = (_NUM_FAILURES g + 1)%Z
        /\ _failures (w_check_log w2)
           = (if under_cap g then _failures g ++ [paint g text] else _failures g)
        /\ self_msg w2 = None
  end.
Proof.
  intros Hbody. destruct r as [[]|e].
  - unfold with_check, with_stmt, bind, __enter__, ret. rewrite Hbody.
    eexists. repeat split.
  - intros Hcls Hstop Hesc g text.
    unfold with_check, with_stmt, bind, __enter__, ret. rewrite Hbody.
    unfold __exit__. rewrite Hcls. unfold bind, gets. rewrite Hstop.
    subst g text. unfold self_msg.
    destruct (context_manager.msg (context_manager.check (w_context_manager w1)));
      unfold in_check_log; rewrite log_failure_run; unfold result; rewrite Hesc;
      eexists; repeat split.
Qed.

Lemma checked_block_exit_witness :
  exists w2,
    with_check (raise (Exn AssertionError "assert 1 == 2"))
      (snd (__call__ (Some "totals") initial_world))
    = (Normal tt, w2)
    /\ _NUM_FAILURES (w_check_log w2) = 1%Z
    /\ _failures (w_check_log w2) = ["totals" +:+ newline +:+ "assert 1 == 2"]
    /\ self_msg w2 = None.
Proof.
  apply (checked_block_exit (raise (Exn AssertionError "assert 1 == 2"))
           (snd (__call__ (Some "totals") initial_world))
           (snd (__call__ (Some "totals") initial_world))
           (Raise (Exn AssertionError "assert 1 == 2")));
    reflexivity.
Defined.

(** C9 fails as stated: with stop-on-first-failure off and [max_fail] = 1,
    the failure raised in the block is recorded and the recording escalates;
    the block does not end normally. *)
Lemma checked_block_escalates_at_max_fail :
  fst (with_check_msg (Some "totals") (raise (Exn AssertionError "assert 1 == 2"))
         (set_check_log (set_MAX_FAIL (Some 1%Z) initial) initial_world))
  = Raise (Exn AssertionError "pytest-check max fail of 1 reached").
Proof. reflexivity. Qed.

End CheckedBlock.

(** ** The validation of the expected kinds *)

Section RaisesValidation.

Import check_log LogFailure CheckRaisesContext.

(** The validation loop of [raises]: it passes when every item is a class
    and raises [TypeError] at the first item that is not. *)
Lemma all_classes (items : list pyobj) :
  builtins.all
    (fun exc =>
       if builtins.is_type exc then Normal true
       else builtins.issubclass_of exc BaseException)
    items
  = if forallb builtins.is_type items then Normal true
    else Raise (Exn TypeError "issubclass() arg 1 must be a class").
Proof.
  induction items as [|x items IH]; simpl; [reflexivity|].
  destruct x; simpl; try reflexivity. exact IH.
Qed.

(** An exception that is not an assertion failure passes through a checked
    block untouched and leaves the log as it is. *)
Lemma other_exception_through_checked_block
    (body : M world unit) (w w1 : world) (e : exn) :
  body w = (Raise e, w1) ->
  issubclass_class (exc_type e) AssertionError = false ->
  exists w2,
    CheckContextManager.with_check body w = (Raise e, w2)
    /\ w_check_log w2 = w_check_log w1.
Proof.
  intros Hbody Hcls.
  unfold CheckContextManager.with_check, with_stmt, bind,
    CheckContextManager.__enter__, ret.
  rewrite Hbody. unfold CheckContextManager.__exit__. rewrite Hcls.
  eexists. split; reflexivity.
Qed.

(** The kinds [raises] turns down make it fail before it looks at its
    other arguments, in the state it was called in. *)
Lemma raises_rejected
    (expected_exception : pyobj) (args : option (positional * list pyobj))
    (kw : kwargs) (w : world) :
  rejected expected_exception = true ->
  exists text,
    raises expected_exception args kw w = (Raise (Exn TypeError text), w).
Proof.
  intros Hrej.
  destruct expected_exception as [| b | n | s | c | items]; simpl in Hrej;
    try (eexists; reflexivity); try discriminate.
  - destruct s; [discriminate|]. eexists. reflexivity.
  - apply negb_true_iff in Hrej. eexists.
    unfold raises, bind, pure. simpl. rewrite all_classes, Hrej. reflexivity.
Qed.

Lemma exception_kinds_classes (items : list pyobj) :
  forallb
    (fun item =>
       match item with
       | OClass c => issubclass_class c BaseException
       | _ => false
       end)
    items = true ->
  forallb builtins.is_type items = true.
Proof.
  induction items as [|x items IH]; simpl; [reflexivity|].
  intros H. apply andb_true_iff in H as [Hx Hitems].
  destruct x; try discriminate. simpl. apply IH, Hitems.
Qed.

(** C4, as the code has it: when the expected kinds are neither a class nor
    an iterable whose items are all classes, [raises] fails at once with a
    [TypeError], in the unchanged state and before any body runs, and
    records nothing itself.  A checked block around the call lets that error
    through and records nothing.  An exception-expectation scope around the
    call treats it like any exception of its body: it suppresses it if
    [TypeError] is among its expected kinds, and otherwise passes it on if
    the stop flag of check_raises is set and records it as a soft failure if
    the flag is off.  An exception class, a tuple of exception classes and
    the empty tuple are accepted, and without positional arguments the call
    returns the context. *)
Theorem raises_validation (expected_exception : pyobj) :
  (rejected expected_exception = true ->
   forall args kw w, exists text,
     raises expected_exception args kw w = (Raise (Exn TypeError text), w)
     /\ (exists w',
           CheckContextManager.with_check
             (let* _ := raises expected_exception args kw in ret tt) w
           = (Raise (Exn TypeError text), w')
           /\ w_check_log w' = w_check_log w)
     /\ (forall outer matched,
           builtins.issubclass TypeError (OTuple (check_raises.expected_excs outer))
           = Normal matched ->
           with_raises outer
             (let* _ := raises expected_exception args kw in ret tt) w
           = if matched then (Normal tt, w)
             else if check_raises._STOP_ON_FAIL (w_check_raises w)
                  then (Raise (Exn TypeError text), w)
                  else record_failure
                         (failure_message outer (Some (Exn TypeError text))) w))
  /\ (exception_kinds expected_exception = true ->
      forall msg w,
        raises expected_exception None (msg_kwargs msg) w
        = (Normal (Some (__init__ [expected_exception] msg)), w)).
Proof.
  split.
  - intros Hrej args kw w.
    destruct (raises_rejected expected_exception args kw w Hrej) as (text & H).
    assert (Hbody : (let* _ := raises expected_exception args kw in ret tt) w
                    = (Raise (Exn TypeError text), w)).
    { unfold bind. rewrite H. reflexivity. }
    exists text. split; [exact H|]. split.
    + apply other_exception_through_checked_block; [exact Hbody|reflexivity].
    + intros outer matched Hmatch.
      revert Hbody.
      generalize (let* _ := raises expected_exception args kw in ret tt).
      intros body Hbody.
      unfold with_raises, with_stmt, bind, __enter__, ret.
      rewrite Hbody. unfold __exit__, pure, bind, gets, ret, raise.
      change (exc_type (Exn TypeError text)) with TypeError. rewrite Hmatch.
      destruct matched; [reflexivity|].
      destruct (check_raises._STOP_ON_FAIL (w_check_raises w)); simpl;
        [reflexivity|].
      rewrite in_check_log_log_failure. unfold record_failure.
      destruct (result (w_check_log w)) as [[]|]; reflexivity.
  - intros Hkinds msg w.
    destruct expected_exception as [| b | n | s | c | items]; simpl in Hkinds;
      try discriminate.
    + destruct msg; reflexivity.
    + apply exception_kinds_classes in Hkinds.
      unfold raises, bind, pure. simpl. rewrite all_classes, Hkinds.
      destruct msg; reflexivity.
Qed.

Lemma raises_validation_witness :
  (exists text,
     raises (OTuple [OClass ValueError; OInt 3]) None [] initial_world
     = (Raise (Exn TypeError text), initial_world)
     /\ with_raises (__init__ [OClass ValueError] None)
          (let* _ := raises (OTuple [OClass ValueError; OInt 3]) None [] in ret tt)
          initial_world
        = record_failure (MExc (Exn TypeError text)) initial_world)
  /\ raises (OTuple [OClass ValueError; OClass KeyError]) None (msg_kwargs None)
       initial_world
     = (Normal (Some (__init__ [OTuple [OClass ValueError; OClass KeyError]] None)),
        initial_world).
Proof.
  split.
  - destruct (proj1 (raises_validation (OTuple [OClass ValueError; OInt 3]))
                eq_refl None [] initial_world) as (text & Hraise & _ & Houter).
    exists text. split; [exact Hraise|].
    apply (Houter (__init__ [OClass ValueError] None) false). reflexivity.
  - apply (proj2 (raises_validation (OTuple [OClass ValueError; OClass KeyError]))).
    reflexivity.
Defined.

(** C4 fails as stated: an empty tuple of expected kinds is accepted. *)
Lemma raises_accepts_empty_tuple :
  raises (OTuple []) None [] initial_world
  = (Normal (Some (__init__ [OTuple []] None)), initial_world).
Proof. reflexivity. Qed.

(** The error of a call with malformed kinds, raised inside a scope that
    expects [ValueError], is stored by that scope as a soft failure. *)
Example enclosing_scope_records_usage_error :
  with_raises (__init__ [OClass ValueError] None)
    (let* _ := raises (OInt 3) None [] in ret tt) initial_world
  = (Normal tt,
     set_check_log
       (set_failures ["'int' object is not iterable"] (set_NUM_FAILURES 1 initial))
       initial_world).
Proof. reflexivity. Qed.

(** The first disjunct of the assert holds for every class, so the test
    against [BaseException] is not reached for one: [int] gets through. *)
Lemma raises_accepts_non_exception_class :
  raises (OClass int_) None [] initial_world
  = (Normal (Some (__init__ [OClass int_] None)), initial_world).
Proof. reflexivity. Qed.

(** An item that is not a class is turned down before the callable runs. *)
Lemma raises_rejects_non_class_item :
  raises (OTuple [OClass ValueError; OInt 3])
    (Some (PCallable (fun _ _ => in_check_log (log_failure (MStr "ran") "")), []))
    [] initial_world
  = (Raise (Exn TypeError "issubclass() arg 1 must be a class"), initial_world).
Proof. reflexivity. Qed.

End RaisesValidation.

(** ** The pytest hooks *)

Section Plugin.

Import check_log LogFailure plugin.

(** Whatever the configuration, [pytest_configure] leaves every global that
    check_log, check_raises and context_manager read as it was: the names it
    assigns are new attributes of those modules. *)
Lemma pytest_configure_keeps_globals (isatty : bool) (config : Config) (w : world) :
  exists w',
    pytest_configure isatty config w = Some w'
    /\ _DEFAULT_MAX_FAIL (w_check_log w') = _DEFAULT_MAX_FAIL (w_check_log w)
    /\ _DEFAULT_MAX_REPORT (w_check_log w') = _DEFAULT_MAX_REPORT (w_check_log w)
    /\ _DEFAULT_MAX_TB (w_check_log w') = _DEFAULT_MAX_TB (w_check_log w)
    /\ _STOP_ON_FAIL (w_check_log w') = _STOP_ON_FAIL (w_check_log w)
    /\ SHOULD_USE_COLOR (w_check_log w') = SHOULD_USE_COLOR (w_check_log w)
    /\ check_raises._STOP_ON_FAIL (w_check_raises w')
       = check_raises._STOP_ON_FAIL (w_check_raises w)
    /\ context_manager._STOP_ON_FAIL (w_context_manager w')
       = context_manager._STOP_ON_FAIL (w_context_manager w).
Proof.
  unfold pytest_configure. destruct (check_no_tb config);
    eexists; (split; [reflexivity|]); repeat split.
Qed.

(** An assignment under the declared name does reach the global. *)
Lemma setattr_declared_limit (l : option Z) (g : globals) :
  setattr "_DEFAULT_MAX_FAIL" (of_limit l) g = Some (set_DEFAULT_MAX_FAIL l g).
Proof. destruct l; reflexivity. Qed.

(** C3: a run configured with --maxfail=1, --check-max-fail=2,
    --check-max-report=5 and --check-max-tb=3.  The values land in
    attributes named [_default_max_fail], [_default_max_report],
    [_default_max_tb] and [_stop_on_fail]; the reset reads
    [_DEFAULT_MAX_FAIL], [_DEFAULT_MAX_REPORT] and [_DEFAULT_MAX_TB], so it
    restores [None] three times, and a recorded failure does not escalate. *)
Theorem configured_limits_not_restored :
  let config := Build_Config "no" 1 "auto" (Some 2%Z) (Some 5%Z) (Some 3%Z) false in
  exists w,
    pytest_configure false config initial_world = Some w
    /\ attrs (w_check_log w) !! "_default_max_fail" = Some (OInt 2)
    /\ attrs (w_check_log w) !! "_stop_on_fail" = Some (OBool true)
    /\ let g := clear_failures (w_check_log w) in
       _MAX_FAIL g = None /\ _MAX_REPORT g = None /\ _MAX_TB g = None
       /\ fst (log_failure (MStr "check 1 == 2") "" g) = Normal tt.
Proof.
  intros config. eexists. split; [reflexivity|].
  split; [vm_compute; reflexivity|]. split; [vm_compute; reflexivity|].
  repeat split.
Qed.

End Plugin.

(** ** Runs of the whole package *)

Section Runs.

Import check_log plugin.

(** One failing [equal] with a message, then the hook. *)
Example equal_with_message_drained :
  fst (drain (snd (check_functions.equal 3 5 "should match" initial_world)))
  = ["check 3 == 5: should match"].
Proof. reflexivity. Qed.

(** Three [equal] checks of which the last two fail, under a cap of 1: the
    hook reads the first failure's message and the counter stands at 2. *)
Example three_checks_under_cap_of_one :
  let test :=
    let* _ := CheckContextManager.set_max_report (Some 1%Z) in
    let* _ := check_functions.equal 1 1 "" in
    let* _ := check_functions.equal 1 2 "" in
    let* _ := check_functions.equal 3 4 "" in
    ret tt in
  let w := snd (test initial_world) in
  fst (drain w) = ["check 1 == 2"] /\ _NUM_FAILURES (w_check_log w) = 2%Z.
Proof. split; reflexivity. Qed.

(** The report of a test with two stored failures. *)
Example report_of_failed_test :
  let w := set_check_log (set_failures ["first"; "second"]
                            (set_NUM_FAILURES 2 initial)) initial_world in
  fst (pytest_runtest_makereport None (Build_TestReport "passed" None None) w)
  = (Build_TestReport "failed"
       (Some ("first" +:+ CheckContextManager.newline +:+ "second")) None,
     Some (Exn AssertionError
             ("first" +:+ CheckContextManager.newline +:+ "second"))).
Proof. reflexivity. Qed.

(** When the recording made on exit from a checked block escalates, the
    pending message of the block is still set afterwards. *)
Example checked_block_keeps_message_on_escalation :
  CheckContextManager.self_msg
    (snd (CheckContextManager.with_check_msg (Some "totals")
            (raise (Exn AssertionError "assert 1 == 2"))
            (set_check_log (set_MAX_FAIL (Some 1%Z) initial) initial_world)))
  = Some "totals".
Proof. reflexivity. Qed.

(** [check_func] turns an assertion failure into a stored failure and
    [False]. *)
Example check_func_records :
  check_functions.check_func (py_assert false "totals differ") initial_world
  = (Normal false,
     set_check_log (set_failures ["totals differ"] (set_NUM_FAILURES 1 initial))
       initial_world).
Proof. reflexivity. Qed.

End Runs.

(** * Further properties *)

(** ** The failure log over a whole test *)

Section LogOverATest.

Import check_log LogFailure.

Lemma after_failures_snoc_state (msg : message) (check_str : string)
    (g : globals) :
  snd (log_failure msg check_str g) = recorded msg check_str g.
Proof. rewrite log_failure_run. reflexivity. Qed.

Lemma after_failures_growth (calls : list call) (g : globals) :
  exists new,
    _failures (after_failures calls g) = _failures g ++ new
    /\ (length new <= length calls)%nat
    /\ _NUM_FAILURES (after_failures calls g)
       = (_NUM_FAILURES g + Z.of_nat (length calls))%Z.
Proof.
  revert g. induction calls as [|[msg check_str] calls IH]; intros g.
  - exists []. simpl. rewrite app_nil_r. repeat split; lia.
  - simpl. rewrite after_failures_snoc_state.
    destruct (IH (recorded msg check_str g)) as (new & Hfs & Hlen & Hn).
    rewrite Hfs, Hn. unfold recorded. simpl.
    destruct (under_cap g).
    + exists (paint g (display msg check_str) :: new).
      rewrite <- app_assoc. simpl. repeat split; lia.
    + exists new. repeat split; lia.
Qed.

(** X1: whatever limits a test sets after the reset, and however many
    failures it then records, raising or not, the counter is the number of
    calls and the stored messages never outnumber it. *)
Theorem stored_messages_bounded_by_counter
    (g0 : globals) (max_fail max_report max_tb : option Z) (calls : list call) :
  let g := after_failures calls
             (with_limits max_fail max_report max_tb (clear_failures g0)) in
  _NUM_FAILURES g = Z.of_nat (length calls)
  /\ (Z.of_nat (length (_failures g)) <= _NUM_FAILURES g)%Z.
Proof.
  intros g. subst g.
  destruct (after_failures_growth calls
              (with_limits max_fail max_report max_tb (clear_failures g0)))
    as (new & Hfs & Hlen & Hn).
  rewrite Hfs, Hn. simpl. split; lia.
Qed.

(** X2: recording failures only ever appends: the messages stored before
    are a prefix of those stored after, at most one message is added per
    call, and the counter grows by exactly one per call, whether or not
    calls raise. *)
Theorem stored_messages_only_grow (calls : list call) (g : globals) :
  exists new,
    _failures (after_failures calls g) = _failures g ++ new
    /\ (length new <= length calls)%nat
    /\ _NUM_FAILURES (after_failures calls g)
       = (_NUM_FAILURES g + Z.of_nat (length calls))%Z.
Proof. apply after_failures_growth. Qed.

Lemma clear_failures_recorded (msg : message) (check_str : string) (g : globals) :
  clear_failures (recorded msg check_str g) = clear_failures g.
Proof. destruct g. reflexivity. Qed.

(** X3: the reset forgets the whole test: the limits the test overrode, its
    counter and its messages leave no trace, so the log after the reset is
    the one the reset would have given before the test. *)
Theorem reset_forgets_the_test
    (g : globals) (max_fail max_report max_tb : option Z) (calls : list call) :
  clear_failures (after_failures calls (with_limits max_fail max_report max_tb g))
  = clear_failures g.
Proof.
  transitivity (clear_failures (with_limits max_fail max_report max_tb g)).
  - generalize (with_limits max_fail max_report max_tb g). clear g.
    induction calls as [|[msg check_str] calls IH]; intros g; [reflexivity|].
    simpl. rewrite after_failures_snoc_state, IH.
    apply clear_failures_recorded.
  - destruct g. reflexivity.
Qed.

Lemma escalated_recorded (msg : message) (check_str : string) (g : globals) :
  escalated g = true -> escalated (recorded msg check_str g) = true.
Proof.
  unfold escalated. simpl. destruct (_STOP_ON_FAIL g); [reflexivity|]. simpl.
  destruct (_MAX_FAIL g) as [mf|]; [|discriminate].
  destruct (Z.eqb mf 0); [discriminate|]. simpl.
  intros H. apply Z.leb_le in H. apply Z.leb_le. lia.
Qed.

Lemma escalated_after_failures (calls : list call) (g : globals) :
  escalated g = true -> escalated (after_failures calls g) = true.
Proof.
  revert g. induction calls as [|[msg check_str] calls IH]; intros g H; [exact H|].
  simpl. rewrite after_failures_snoc_state. apply IH, escalated_recorded, H.
Qed.

(** X4: an escalation is final for the test: once a call to [log_failure]
    has raised, every later call raises an [AssertionError] as well,
    however many failures are recorded in between, until the log is reset
    or its limits are changed. *)
Theorem escalation_is_sticky
    (msg : message) (check_str : string) (g g' : globals) (e : exn)
    (calls : list call) (msg' : message) (check_str' : string) :
  log_failure msg check_str g = (Raise e, g') ->
  exists e' g'',
    log_failure msg' check_str' (after_failures calls g') = (Raise e', g'')
    /\ exc_type e' = AssertionError.
Proof.
  intros H. apply log_failure_raise_escalated in H as [Hesc _].
  apply (escalated_after_failures calls) in Hesc.
  destruct (escalated_escalation _ Hesc) as (e' & He' & Hty).
  exists e'. eexists. rewrite log_failure_run. unfold result. rewrite He'.
  split; [reflexivity|exact Hty].
Qed.

Lemma escalation_is_sticky_witness :
  exists e' g'',
    log_failure (MStr "third") ""
      (after_failures [(MStr "second", "")]
         (recorded (MStr "first") "" (set_MAX_FAIL (Some 1%Z) initial)))
    = (Raise e', g'')
    /\ exc_type e' = AssertionError.
Proof.
  apply (escalation_is_sticky (MStr "first") "" (set_MAX_FAIL (Some 1%Z) initial)
           (recorded (MStr "first") "" (set_MAX_FAIL (Some 1%Z) initial))
           (max_fail_error 1) [(MStr "second", "")] (MStr "third") "").
  reflexivity.
Defined.

(** X5: a [max_fail] of 0 counts as no limit: with [max_fail] unset or 0
    and stop-on-first-failure off, no sequence of failures raises, and the
    log ends as if each call had been made on its own. *)
Theorem no_escalation_without_limit (calls : list call) (g : globals) :
  _MAX_FAIL g = None \/ _MAX_FAIL g = Some 0%Z ->
  _STOP_ON_FAIL g = false ->
  log_failures calls g = (Normal tt, after_failures calls g).
Proof.
  revert g. induction calls as [|[msg check_str] calls IH]; intros g Hmf Hstop.
  - reflexivity.
  - simpl. unfold bind. rewrite log_failure_run.
    assert (Hres : result g = Normal tt).
    { unfold result, escalation, max_fail_reached.
      destruct Hmf as [-> | ->]; rewrite Hstop; reflexivity. }
    rewrite Hres. simpl. apply IH; assumption.
Qed.

Lemma no_escalation_without_limit_witness :
  log_failures [(MStr "first", ""); (MStr "second", "")]
    (set_MAX_FAIL (Some 0%Z) initial)
  = (Normal tt,
     after_failures [(MStr "first", ""); (MStr "second", "")]
       (set_MAX_FAIL (Some 0%Z) initial)).
Proof.
  apply (no_escalation_without_limit [(MStr "first", ""); (MStr "second", "")]
           (set_MAX_FAIL (Some 0%Z) initial));
    [right; reflexivity | reflexivity].
Defined.

(** X6: with stop-on-first-failure on, every call to [log_failure] raises an
    [AssertionError], and the failure is in the log all the same: the
    counter is one higher and the message is stored if the cap allows.  The
    text is "Stopping on first failure" unless [max_fail] is reached too. *)
Theorem stop_on_fail_records_then_raises
    (msg : message) (check_str : string) (g : globals) :
  _STOP_ON_FAIL g = true ->
  exists e g',
    log_failure msg check_str g = (Raise e, g')
    /\ exc_type e = AssertionError
    /\ (max_fail_reached g = false -> exc_str e = "Stopping on first failure")
    /\ _NUM_FAILURES g' = (_NUM_FAILURES g + 1)%Z
    /\ _failures g'
       = if under_cap g then _failures g ++ [paint g (display msg check_str)]
         else _failures g.
Proof.
  intros Hstop. rewrite log_failure_run. unfold result, escalation. rewrite Hstop.
  destruct (max_fail_reached g); eexists; eexists;
    (split; [reflexivity|]); repeat split; intros; try reflexivity; discriminate.
Qed.

Lemma stop_on_fail_records_then_raises_witness :
  exists e g',
    log_failure (MStr "check 1 == 2") "" (set_STOP_ON_FAIL true initial)
    = (Raise e, g')
    /\ exc_type e = AssertionError
    /\ (false = false -> exc_str e = "Stopping on first failure")
    /\ _NUM_FAILURES g' = 1%Z
    /\ _failures g' = ["check 1 == 2"].
Proof.
  apply (stop_on_fail_records_then_raises (MStr "check 1 == 2") ""
           (set_STOP_ON_FAIL true initial)).
  reflexivity.
Defined.

End LogOverATest.

(** ** The checked block, case by case *)

Section CheckedBlockCases.

Import check_log LogFailure CheckContextManager.

(** The block in closed form, by how its body ends. *)
Lemma with_check_run (body : M world unit) (w : world) :
  with_check body w
  = match body w with
    | (Normal _, w1) => (Normal tt, msg_cleared w1)
    | (Raise e, w1) =>
        if issubclass_class (exc_type e) AssertionError then
          if context_manager._STOP_ON_FAIL (w_context_manager w1)
          then (Raise e, msg_cleared w1)
          else
            match escalation (w_check_log w1) with
            | None =>
                (Normal tt,
                 msg_cleared
                   (set_check_log
                      (recorded (block_message w1 e) "" (w_check_log w1)) w1))
            | Some e' =>
                (Raise e',
                 set_check_log
                   (recorded (block_message w1 e) "" (w_check_log w1)) w1)
            end
        else (Raise e, msg_cleared w1)
    end.
Proof.
  unfold with_check, with_stmt, bind, __enter__, ret.
  destruct (body w) as [[[]|e] w1]; [reflexivity|].
  unfold __exit__.
  destruct (issubclass_class (exc_type e) AssertionError); [|reflexivity].
  unfold bind, gets.
  destruct (context_manager._STOP_ON_FAIL (w_context_manager w1)); [reflexivity|].
  unfold block_message, self_msg.
  destruct (context_manager.msg (context_manager.check (w_context_manager w1)));
    unfold in_check_log; rewrite log_failure_run; unfold result;
    destruct (escalation (w_check_log w1)); reflexivity.
Qed.

Lemma msg_cleared_facts (w : world) :
  w_check_log (msg_cleared w) = w_check_log w
  /\ self_msg (msg_cleared w) = None
  /\ msg_cleared (msg_cleared w) = msg_cleared w.
Proof. repeat split. Qed.

(** X7: an exception that is not an assertion failure leaves a checked
    block unchanged; the block records nothing and clears its pending
    message. *)
Theorem checked_block_passes_other_exceptions
    (body : M world unit) (w w1 : world) (e : exn) :
  body w = (Raise e, w1) ->
  issubclass_class (exc_type e) AssertionError = false ->
  exists w2,
    with_check body w = (Raise e, w2)
    /\ w_check_log w2 = w_check_log w1
    /\ self_msg w2 = None.
Proof.
  intros Hbody Hcls. rewrite with_check_run, Hbody, Hcls.
  exists (msg_cleared w1). repeat split.
Qed.

Lemma checked_block_passes_other_exceptions_witness :
  exists w2,
    with_check (raise (Exn KeyError "'id'"))
      (snd (__call__ (Some "totals") initial_world))
    = (Raise (Exn KeyError "'id'"), w2)
    /\ w_check_log w2 = initial
    /\ self_msg w2 = None.
Proof.
  apply (checked_block_passes_other_exceptions (raise (Exn KeyError "'id'"))
           (snd (__call__ (Some "totals") initial_world))
           (snd (__call__ (Some "totals") initial_world))
           (Exn KeyError "'id'"));
    reflexivity.
Defined.

(** X8: with the stop flag of context_manager on, an assertion failure
    raised in a checked block leaves the block unchanged; the block records
    nothing and clears its pending message. *)
Theorem checked_block_stop_flag_propagates
    (body : M world unit) (w w1 : world) (e : exn) :
  body w = (Raise e, w1) ->
  issubclass_class (exc_type e) AssertionError = true ->
  context_manager._STOP_ON_FAIL (w_context_manager w1) = true ->
  exists w2,
    with_check body w = (Raise e, w2)
    /\ w_check_log w2 = w_check_log w1
    /\ self_msg w2 = None.
Proof.
  intros Hbody Hcls Hstop. rewrite with_check_run, Hbody, Hcls, Hstop.
  exists (msg_cleared w1). repeat split.
Qed.

Lemma checked_block_stop_flag_propagates_witness :
  let w := set_context_manager
             (context_manager.Globals true
                (context_manager.Build_CheckContextManager (Some "totals")) ∅)
             initial_world in
  exists w2,
    with_check (raise (Exn AssertionError "assert 1 == 2")) w
    = (Raise (Exn AssertionError "assert 1 == 2"), w2)
    /\ w_check_log w2 = w_check_log w
    /\ self_msg w2 = None.
Proof.
  intros w.
  apply (checked_block_stop_flag_propagates
           (raise (Exn AssertionError "assert 1 == 2")) w w
           (Exn AssertionError "assert 1 == 2"));
    reflexivity.
Defined.

(** X9: a checked block that ends normally, whatever happened in its body,
    leaves no pending message behind. *)
Theorem checked_block_normal_end_clears_message
    (body : M world unit) (w w2 : world) :
  with_check body w = (Normal tt, w2) ->
  self_msg w2 = None.
Proof.
  rewrite with_check_run. destruct (body w) as [[[]|e] w1].
  - intros H. injection H as <-. reflexivity.
  - destruct (issubclass_class (exc_type e) AssertionError); [|discriminate].
    destruct (context_manager._STOP_ON_FAIL (w_context_manager w1)); [discriminate|].
    destruct (escalation (w_check_log w1)); [discriminate|].
    intros H. injection H as <-. reflexivity.
Qed.

Lemma checked_block_normal_end_clears_message_witness :
  self_msg
    (snd (with_check (raise (Exn AssertionError "assert 1 == 2"))
            (snd (__call__ (Some "totals") initial_world))))
  = None.
Proof.
  apply (checked_block_normal_end_clears_message
           (raise (Exn AssertionError "assert 1 == 2"))
           (snd (__call__ (Some "totals") initial_world))).
  reflexivity.
Defined.

(** X10: nesting adds nothing: when a checked block ends normally, the
    same block wrapped in a second checked block ends normally in the same
    state, so a failure of the body is recorded once, not twice. *)
Theorem nested_checked_block
    (body : M world unit) (w w2 : world) :
  with_check body w = (Normal tt, w2) ->
  with_check (with_check body) w = (Normal tt, w2).
Proof.
  intros H. rewrite (with_check_run (with_check body)), H.
  f_equal. revert H. rewrite with_check_run.
  destruct (body w) as [[[]|e] w1].
  - intros H. injection H as <-. reflexivity.
  - destruct (issubclass_class (exc_type e) AssertionError); [|discriminate].
    destruct (context_manager._STOP_ON_FAIL (w_context_manager w1)); [discriminate|].
    destruct (escalation (w_check_log w1)); [discriminate|].
    intros H. injection H as <-. reflexivity.
Qed.

Lemma nested_checked_block_witness :
  with_check (with_check (raise (Exn AssertionError "assert 1 == 2")))
    initial_world
  = (Normal tt,
     set_check_log (set_failures ["assert 1 == 2"] (set_NUM_FAILURES 1 initial))
       initial_world).
Proof.
  apply (nested_checked_block (raise (Exn AssertionError "assert 1 == 2"))
           initial_world).
  reflexivity.
Defined.

End CheckedBlockCases.

(** ** The exception-expectation checker, case by case *)

Section RaisesCases.

Import check_log LogFailure CheckRaisesContext.

(** The scope in closed form, by how its body ends. *)
Lemma with_raises_run
    (self : check_raises.CheckRaisesContext) (body : M world unit) (w : world) :
  with_raises self body w
  = match body w with
    | (Normal _, w1) =>
        if check_raises._STOP_ON_FAIL (w_check_raises w1) then (Normal tt, w1)
        else record_failure (failure_message self None) w1
    | (Raise e, w1) =>
        match builtins.issubclass (exc_type e)
                (OTuple (check_raises.expected_excs self)) with
        | Normal true => (Normal tt, w1)
        | Normal false =>
            if check_raises._STOP_ON_FAIL (w_check_raises w1) then (Raise e, w1)
            else record_failure (failure_message self (Some e)) w1
        | Raise type_error => (Raise type_error, w1)
        end
    end.
Proof.
  unfold with_raises, with_stmt, bind, __enter__, ret.
  destruct (body w) as [[[]|e] w1]; unfold __exit__, pure, bind, gets, ret, raise.
  - destruct (check_raises._STOP_ON_FAIL (w_check_raises w1)); simpl; [reflexivity|].
    rewrite in_check_log_log_failure. unfold record_failure.
    destruct (result (w_check_log w1)) as [[]|]; reflexivity.
  - destruct (builtins.issubclass (exc_type e)
                (OTuple (check_raises.expected_excs self))) as [[|]|te];
      try reflexivity.
    destruct (check_raises._STOP_ON_FAIL (w_check_raises w1)); simpl; [reflexivity|].
    rewrite in_check_log_log_failure. unfold record_failure.
    destruct (result (w_check_log w1)) as [[]|]; reflexivity.
Qed.

Lemma rejected_tuple_of_classes (ks : list pyclass) :
  forallb builtins.is_type (map OClass ks) = true.
Proof. induction ks; simpl; auto. Qed.

(** What [raises] does once the expected kinds have passed its check. *)
Lemma raises_accepted (expected_exception : pyobj)
    (args : option (positional * list pyobj)) (kw : kwargs) (w : world) :
  rejected expected_exception = false ->
  raises expected_exception args kw w
  = (let (msg, kw) := kwargs_pop "msg" kw in
     match args with
     | None =>
         let* _ :=
           py_assert (match kw with [] => true | _ => false end)
             ("Unexpected kwargs for soft_check.raises: " +:+ repr_kwargs kw) in
         ret (Some (__init__ [expected_exception] msg))
     | Some (func, rest) =>
         let* _ :=
           py_assert (match func with PCallable _ => true | PObject _ => false end)
             "" in
         let* _ :=
           with_stmt (__enter__ (__init__ [expected_exception] msg))
             (__exit__ (__init__ [expected_exception] msg))
             (fun _ =>
                match func with
                | PCallable call => call rest kw
                | PObject _ => ret tt
                end) in
         ret None
     end) w.
Proof.
  intros Hacc.
  destruct expected_exception as [| b | n | s | c | items]; simpl in Hacc;
    try discriminate.
  - destruct s; [reflexivity|discriminate].
  - reflexivity.
  - apply negb_false_iff in Hacc.
    unfold raises, bind, pure. simpl. rewrite all_classes, Hacc. reflexivity.
Qed.

(** X11: given a tuple of classes, [raises] returns a scope that suppresses
    an exception of the body exactly when its class is a subclass of some
    member of the tuple; any other exception is, by the stop flag, passed on
    or recorded as a soft failure. *)
Theorem raises_tuple_matches_any_member
    (ks : list pyclass) (msg : option string) (body : M world unit)
    (w w1 : world) (e : exn) :
  body w = (Raise e, w1) ->
  exists ctx,
    raises (OTuple (map OClass ks)) None (msg_kwargs msg) w = (Normal (Some ctx), w)
    /\ with_raises ctx body w
       = if existsb (issubclass_class (exc_type e)) ks then (Normal tt, w1)
         else if check_raises._STOP_ON_FAIL (w_check_raises w1) then (Raise e, w1)
         else record_failure (failure_message ctx (Some e)) w1.
Proof.
  intros Hbody. exists (__init__ [OTuple (map OClass ks)] msg). split.
  - rewrite raises_accepted.
    + destruct msg; reflexivity.
    + simpl. rewrite rejected_tuple_of_classes. reflexivity.
  - rewrite with_raises_run, Hbody.
    change (check_raises.expected_excs (__init__ [OTuple (map OClass ks)] msg))
      with [OTuple (map OClass ks)].
    rewrite issubclass_tuple_of_classes.
    destruct (existsb (issubclass_class (exc_type e)) ks); reflexivity.
Qed.

Lemma raises_tuple_matches_any_member_witness :
  exists ctx,
    raises (OTuple (map OClass [ValueError; LookupError])) None (msg_kwargs None)
      initial_world = (Normal (Some ctx), initial_world)
    /\ with_raises ctx (raise (Exn KeyError "'id'")) initial_world
       = (Normal tt, initial_world).
Proof.
  apply (raises_tuple_matches_any_member [ValueError; LookupError] None
           (raise (Exn KeyError "'id'")) initial_world initial_world
           (Exn KeyError "'id'")).
  reflexivity.
Defined.

(** X12: [CheckRaisesContext] checks nothing when it is built: a first
    expected kind that is neither a class nor a tuple shows only at the end
    of the scope, and only if the body raised; the exception of the body is
    then replaced by a [TypeError] and nothing is recorded. *)
Theorem malformed_kind_fails_at_scope_exit
    (o : pyobj) (others : list pyobj) (msg : option string)
    (body : M world unit) (w w1 : world) (e : exn) :
  match o with
  | OClass _ | OTuple _ => False
  | _ => True
  end ->
  body w = (Raise e, w1) ->
  with_raises (__init__ (o :: others) msg) body w
  = (Raise (Exn TypeError
              "issubclass() arg 2 must be a class, a tuple of classes, or a union"),
     w1).
Proof.
  intros Ho Hbody. rewrite with_raises_run, Hbody.
  destruct o; try contradiction; reflexivity.
Qed.

Lemma malformed_kind_fails_at_scope_exit_witness :
  with_raises (__init__ [OInt 3] None) (raise (Exn ValueError "bad value"))
    initial_world
  = (Raise (Exn TypeError
              "issubclass() arg 2 must be a class, a tuple of classes, or a union"),
     initial_world).
Proof.
  apply (malformed_kind_fails_at_scope_exit (OInt 3) [] None
           (raise (Exn ValueError "bad value")) initial_world initial_world
           (Exn ValueError "bad value"));
    [exact I | reflexivity].
Defined.

(** X13: the direct form of [raises] is the scope form around one call:
    for accepted kinds, calling [raises] with the kinds [E], a callable, its
    arguments and a message [m] ends, and leaves the state, as the scope
    [CheckRaisesContext(E, msg=m)] around the call of the callable with the
    remaining arguments does, and it returns [None]. *)
Theorem raises_direct_call_is_scope
    (expected_exception : pyobj) (call : list pyobj -> kwargs -> M world unit)
    (rest : list pyobj) (kw : kwargs) (w : world) :
  rejected expected_exception = false ->
  raises expected_exception (Some (PCallable call, rest)) kw w
  = (let* _ :=
       with_raises
         (__init__ [expected_exception] (fst (kwargs_pop "msg" kw)))
         (call rest (snd (kwargs_pop "msg" kw))) in
     ret None) w.
Proof.
  intros Hacc. rewrite raises_accepted by exact Hacc.
  destruct (kwargs_pop "msg" kw) as [m kw']. reflexivity.
Qed.

Lemma raises_direct_call_is_scope_witness :
  raises (OClass ValueError)
    (Some (PCallable (fun _ _ => raise (Exn ValueError "bad value")), []))
    [("msg", Some "expected a ValueError")] initial_world
  = (let* _ :=
       with_raises (__init__ [OClass ValueError] (Some "expected a ValueError"))
         (raise (Exn ValueError "bad value")) in
     ret None) initial_world.
Proof.
  apply (raises_direct_call_is_scope (OClass ValueError)
           (fun _ _ => raise (Exn ValueError "bad value")) []
           [("msg", Some "expected a ValueError")] initial_world).
  reflexivity.
Defined.

(** X14: a first positional argument that is not callable makes [raises]
    fail with a bare [AssertionError] before any scope is entered; a checked
    block around the call therefore takes it for a soft failure: with the
    stop flag off and no escalation due, the block records it and ends
    normally. *)
Theorem raises_non_callable_becomes_soft_failure
    (expected_exception o : pyobj) (rest : list pyobj) (kw : kwargs) (w : world) :
  rejected expected_exception = false ->
  context_manager._STOP_ON_FAIL (w_context_manager w) = false ->
  escalation (w_check_log w) = None ->
  raises expected_exception (Some (PObject o, rest)) kw w
  = (Raise (Exn AssertionError ""), w)
  /\ exists w2,
       CheckContextManager.with_check
         (let* _ := raises expected_exception (Some (PObject o, rest)) kw in ret tt) w
       = (Normal tt, w2)
       /\ _NUM_FAILURES (w_check_log w2) = (_NUM_FAILURES (w_check_log w) + 1)%Z.
Proof.
  intros Hacc Hstop Hesc.
  assert (H : raises expected_exception (Some (PObject o, rest)) kw w
              = (Raise (Exn AssertionError ""), w)).
  { rewrite raises_accepted by exact Hacc.
    destruct (kwargs_pop "msg" kw) as [m kw']. reflexivity. }
  split; [exact H|].
  rewrite with_check_run. unfold bind at 1. rewrite H.
  change (issubclass_class (exc_type (Exn AssertionError "")) AssertionError)
    with true.
  cbv iota. rewrite Hstop, Hesc. eexists. split; reflexivity.
Qed.

Lemma raises_non_callable_becomes_soft_failure_witness :
  raises (OClass ValueError) (Some (PObject (OInt 3), [])) [] initial_world
  = (Raise (Exn AssertionError ""), initial_world)
  /\ exists w2,
       CheckContextManager.with_check
         (let* _ := raises (OClass ValueError) (Some (PObject (OInt 3), [])) [] in
          ret tt) initial_world
       = (Normal tt, w2)
       /\ _NUM_FAILURES (w_check_log w2) = (0 + 1)%Z.
Proof.
  apply (raises_non_callable_becomes_soft_failure (OClass ValueError) (OInt 3) [] []
           initial_world);
    reflexivity.
Defined.

End RaisesCases.

(** ** The predicate checks *)

Section PredicateChecks.

Import check_log LogFailure check_functions.

(** A check that fails: how it ends and what it leaves. *)
Lemma failed_check_run (msg : message) (check_str : string) (w : world) :
  (let* _ := in_check_log (log_failure msg check_str) in ret false) w
  = (match result (w_check_log w) with
     | Normal _ => Normal false
     | Raise e => Raise e
     end,
     set_check_log (recorded msg check_str (w_check_log w)) w).
Proof.
  unfold bind, in_check_log, ret. rewrite log_failure_run.
  destruct (result (w_check_log w)) as [[]|]; reflexivity.
Qed.

(** A check passes exactly when its condition holds. *)
Lemma check_passes (cond : bool) (msg : message) (check_str : string) (w : world) :
  fst ((if cond then ret true
        else let* _ := in_check_log (log_failure msg check_str) in ret false) w)
  = Normal true
  <-> cond = true.
Proof.
  destruct cond.
  - split; reflexivity.
  - rewrite failed_check_run. simpl.
    destruct (result (w_check_log w)); split; discriminate.
Qed.

Lemma between_passes (v lo hi : Z) (msg : string) (li ui : bool) (w : world) :
  fst (between v lo hi msg li ui w) = Normal true
  <-> in_interval v lo hi li ui = true.
Proof.
  unfold between, in_interval. destruct li, ui; simpl; apply check_passes.
Qed.

(** X15: [between] passes exactly when the value lies in the interval, each
    bound counted in or out as its flag says; when it passes the state is
    untouched, and when it fails exactly one failure is counted. *)
Theorem between_in_interval
    (v lo hi : Z) (msg : string) (li ui : bool) (w : world) :
  if in_interval v lo hi li ui
  then between v lo hi msg li ui w = (Normal true, w)
  else fst (between v lo hi msg li ui w) <> Normal true
       /\ _NUM_FAILURES (w_check_log (snd (between v lo hi msg li ui w)))
          = (_NUM_FAILURES (w_check_log w) + 1)%Z.
Proof.
  destruct (in_interval v lo hi li ui) eqn:Hin.
  - unfold between, in_interval in *. destruct li, ui; simpl in *;
      rewrite Hin; reflexivity.
  - split.
    + intros H. apply between_passes in H. congruence.
    + unfold between, in_interval in *. destruct li, ui; simpl in *;
        rewrite Hin, failed_check_run; reflexivity.
Qed.

(** X16: [between] agrees with the one-sided checks: it passes exactly when
    the check against the lower bound ([greater_equal] or [greater]) and the
    check against the upper bound ([less_equal] or [less]) both pass. *)
Theorem between_is_lower_and_upper_check
    (v lo hi : Z) (msg : string) (li ui : bool) (w : world) :
  fst (between v lo hi msg li ui w) = Normal true
  <-> fst ((if li then greater_equal else greater) v lo msg w) = Normal true
      /\ fst ((if ui then less_equal else less) v hi msg w) = Normal true.
Proof.
  rewrite between_passes. unfold in_interval. rewrite andb_true_iff.
  assert (Hlo : fst ((if li then greater_equal else greater) v lo msg w)
                = Normal true
                <-> (if li then Z.leb lo v else Z.ltb lo v) = true).
  { destruct li.
    - unfold greater_equal. rewrite check_passes, Z.geb_leb. reflexivity.
    - unfold greater. rewrite check_passes, Z.gtb_ltb. reflexivity. }
  assert (Hhi : fst ((if ui then less_equal else less) v hi msg w) = Normal true
                <-> (if ui then Z.leb v hi else Z.ltb v hi) = true).
  { destruct ui; [unfold less_equal|unfold less]; apply check_passes. }
  rewrite Hlo, Hhi. reflexivity.
Qed.

(** X17: the checks come in opposite pairs, of which exactly one passes on
    the same arguments: [equal] and [not_equal], [greater] and
    [less_equal], [less] and [greater_equal], [is_true] and [is_false]. *)
Theorem opposite_checks (a b : Z) (value : bool) (msg : string) (w : world) :
  (fst (equal a b msg w) = Normal true
   <-> fst (not_equal a b msg w) <> Normal true)
  /\ (fst (greater a b msg w) = Normal true
      <-> fst (less_equal a b msg w) <> Normal true)
  /\ (fst (less a b msg w) = Normal true
      <-> fst (greater_equal a b msg w) <> Normal true)
  /\ (fst (is_true value msg w) = Normal true
      <-> fst (is_false value msg w) <> Normal true).
Proof.
  unfold equal, not_equal, greater, less_equal, less, greater_equal,
    is_true, is_false.
  rewrite !check_passes. repeat split.
  - intros ->. discriminate.
  - destruct (Z.eqb a b); [reflexivity|]. intros H. exfalso. apply H. reflexivity.
  - rewrite Z.gtb_ltb, Z.ltb_antisym. intros H. apply negb_true_iff in H.
    rewrite H. discriminate.
  - rewrite Z.gtb_ltb, Z.ltb_antisym. destruct (Z.leb a b); [|reflexivity].
    intros H. exfalso. apply H. reflexivity.
  - rewrite Z.geb_leb, Z.ltb_antisym. intros H. apply negb_true_iff in H.
    rewrite H. discriminate.
  - rewrite Z.geb_leb, Z.ltb_antisym. destruct (Z.leb b a); [|reflexivity].
    intros H. exfalso. apply H. reflexivity.
  - intros ->. discriminate.
  - destruct value; [reflexivity|]. intros H. exfalso. apply H. reflexivity.
Qed.

(** X18: every predicate check is soft: from any state it either returns
    [True] and leaves the state untouched, or makes exactly one call to
    [log_failure] and returns [False] if that call does not escalate. *)
Theorem predicate_checks_are_soft
    (a b c : Z) (value li ui : bool) (msg : string) :
  soft_check (equal a b msg) /\ soft_check (not_equal a b msg)
  /\ soft_check (is_true value msg) /\ soft_check (is_false value msg)
  /\ soft_check (greater a b msg) /\ soft_check (greater_equal a b msg)
  /\ soft_check (less a b msg) /\ soft_check (less_equal a b msg)
  /\ soft_check (between a b c msg li ui).
Proof.
  assert (H : forall (cond : bool) m cs,
    soft_check (if cond then ret true
                else let* _ := in_check_log (log_failure m cs) in ret false)).
  { intros cond m cs w. destruct cond; [left; reflexivity|].
    right. exists m, cs. reflexivity. }
  unfold equal, not_equal, is_true, is_false, greater, greater_equal, less,
    less_equal, between.
  repeat split; try apply H.
  destruct li, ui; simpl; apply H.
Qed.

(** X19: [check_func] around [assert_equal] is [equal] up to the stored
    text: from any state both return the same value, or raise the same
    escalation, and count the same number of failures. *)
Theorem check_func_assert_equal_is_equal (a b : Z) (msg : string) (w : world) :
  fst (check_func (assert_equal a b msg) w) = fst (equal a b msg w)
  /\ _NUM_FAILURES (w_check_log (snd (check_func (assert_equal a b msg) w)))
     = _NUM_FAILURES (w_check_log (snd (equal a b msg w))).
Proof.
  unfold check_func, assert_equal, equal, py_assert.
  destruct (Z.eqb a b); [split; reflexivity|].
  unfold raise. simpl. rewrite !failed_check_run. split; reflexivity.
Qed.

(** X20: the wrapper of [check_func] returns [True] exactly when the
    wrapped function ends normally, lets an exception that is not an
    assertion failure through with the state the function left, and after
    an assertion failure has counted exactly one failure. *)
Theorem check_func_wrapper (func : M world unit) (w w1 : world) (r : outcome unit) :
  func w = (r, w1) ->
  match r with
  | Normal _ => check_func func w = (Normal true, w1)
  | Raise e =>
      if issubclass_class (exc_type e) AssertionError
      then fst (check_func func w) <> Normal true
           /\ _NUM_FAILURES (w_check_log (snd (check_func func w)))
              = (_NUM_FAILURES (w_check_log w1) + 1)%Z
      else check_func func w = (Raise e, w1)
  end.
Proof.
  intros Hf. unfold check_func. rewrite Hf. destruct r as [[]|e]; [reflexivity|].
  destruct (issubclass_class (exc_type e) AssertionError); [|reflexivity].
  rewrite failed_check_run. simpl. split; [|reflexivity].
  destruct (result (w_check_log w1)); discriminate.
Qed.

Lemma check_func_wrapper_witness :
  fst (check_func (assert_equal 1 2 "totals differ") initial_world) <> Normal true
  /\ _NUM_FAILURES
       (w_check_log (snd (check_func (assert_equal 1 2 "totals differ")
                            initial_world)))
     = (_NUM_FAILURES (w_check_log initial_world) + 1)%Z.
Proof.
  apply (check_func_wrapper (assert_equal 1 2 "totals differ") initial_world
           initial_world (Raise (Exn AssertionError "totals differ"))).
  reflexivity.
Defined.

End PredicateChecks.

(** ** The pytest hooks, further *)

Section PluginCases.

Import check_log LogFailure plugin.

Lemma clear_failures_idempotent (g : globals) :
  clear_failures (clear_failures g) = clear_failures g.
Proof. destruct g. reflexivity. Qed.

(** X21: a test all of whose failures fell beyond the reporting cap is not
    reported: after a reset, a cap [r <= 0] and N recorded failures (no
    [max_fail], stop-on-first-failure off), the counter stands at N, yet the
    report hook leaves the report as it was and sets no exception info. *)
Theorem failures_beyond_cap_are_not_reported
    (w0 : world) (r : Z) (calls : list call)
    (xfailed : option string) (report : TestReport) :
  (r <= 0)%Z ->
  _DEFAULT_MAX_FAIL (w_check_log w0) = None ->
  _STOP_ON_FAIL (w_check_log w0) = false ->
  exists w1,
    soft_failures (Some r) calls (snd (drain w0)) = (Normal tt, w1)
    /\ _NUM_FAILURES (w_check_log w1) = Z.of_nat (length calls)
    /\ fst (pytest_runtest_makereport xfailed report w1) = (report, None).
Proof.
  intros Hr Hmf Hstop.
  set (g := set_MAX_REPORT (Some r) (clear_failures (w_check_log w0))).
  destruct (log_failures_capped (w_check_log w0) calls [] g)
    as (g' & Hrun & Hn & Hfs); try reflexivity; try assumption.
  { simpl. rewrite take_nil. reflexivity. }
  simpl in Hn, Hfs. replace (Z.to_nat r) with 0%nat in Hfs by lia.
  simpl in Hfs.
  exists (set_check_log g' (snd (drain w0))). split.
  - unfold soft_failures, bind, CheckContextManager.set_max_report, modify,
      in_check_log. simpl. fold g. rewrite Hrun. reflexivity.
  - split; [exact Hn|].
    unfold pytest_runtest_makereport, drain, get_failures. simpl.
    rewrite Hfs. reflexivity.
Qed.

Lemma failures_beyond_cap_are_not_reported_witness :
  exists w1,
    soft_failures (Some 0%Z) [(MStr "check 1 == 2", ""); (MStr "check 3 == 4", "")]
      (snd (drain initial_world)) = (Normal tt, w1)
    /\ _NUM_FAILURES (w_check_log w1) = 2%Z
    /\ fst (pytest_runtest_makereport None (Build_TestReport "passed" None None) w1)
       = (Build_TestReport "passed" None None, None).
Proof.
  apply (failures_beyond_cap_are_not_reported initial_world 0
           [(MStr "check 1 == 2", ""); (MStr "check 3 == 4", "")] None
           (Build_TestReport "passed" None None));
    [lia | reflexivity | reflexivity].
Defined.

(** X22: the report hook drains the log: whatever it found, a second run
    of the hook right after the first leaves the report of the first as it
    is, sets no exception info and finds the log already reset. *)
Theorem report_hook_twice
    (xfailed xfailed' : option string) (report : TestReport) (w : world) :
  let first := pytest_runtest_makereport xfailed report w in
  pytest_runtest_makereport xfailed' (fst (fst first)) (snd first)
  = ((fst (fst first), None), snd first).
Proof.
  unfold pytest_runtest_makereport, drain, get_failures.
  destruct (_failures (w_check_log w)); simpl;
    rewrite clear_failures_idempotent; destruct w; reflexivity.
Qed.

(** X23: with stored messages the report hook marks the report failed, or
    skipped under the xfail reason if the test was expected to fail; the
    long representation and the text of the [AssertionError] put into the
    call are the stored messages joined by newlines; and the log is reset. *)
Theorem report_hook_with_failures
    (xfailed : option string) (report : TestReport) (w : world) :
  _failures (w_check_log w) <> [] ->
  let text := join CheckContextManager.newline (_failures (w_check_log w)) in
  pytest_runtest_makereport xfailed report w
  = ((match xfailed with
      | Some reason => Build_TestReport "skipped" (Some text) (Some reason)
      | None => Build_TestReport "failed" (Some text) (wasxfail report)
      end,
      Some (Exn AssertionError text)),
     set_check_log (clear_failures (w_check_log w)) w).
Proof.
  intros Hfs text. subst text.
  unfold pytest_runtest_makereport, drain, get_failures.
  destruct (_failures (w_check_log w)) as [|m fs] eqn:E; [congruence|].
  reflexivity.
Qed.

Lemma report_hook_with_failures_witness :
  let w := set_check_log (set_failures ["first"; "second"]
                            (set_NUM_FAILURES 2 initial)) initial_world in
  pytest_runtest_makereport (Some "known bug") (Build_TestReport "passed" None None) w
  = ((Build_TestReport "skipped"
        (Some (join CheckContextManager.newline ["first"; "second"]))
        (Some "known bug"),
      Some (Exn AssertionError (join CheckContextManager.newline ["first"; "second"]))),
     set_check_log (clear_failures (w_check_log w)) w).
Proof.
  intros w.
  apply (report_hook_with_failures (Some "known bug")
           (Build_TestReport "passed" None None) w).
  discriminate.
Defined.

(** X24: whatever the configuration, [pytest_configure] succeeds and
    changes nothing but the attribute dictionaries of the four modules:
    every declared global, the log and the [check] instance are as before. *)
Theorem pytest_configure_only_adds_attributes
    (isatty : bool) (config : Config) (w : world) :
  exists w',
    pytest_configure isatty config w = Some w'
    /\ set_attrs (attrs (w_check_log w)) (w_check_log w') = w_check_log w
    /\ check_raises._STOP_ON_FAIL (w_check_raises w')
       = check_raises._STOP_ON_FAIL (w_check_raises w)
    /\ context_manager._STOP_ON_FAIL (w_context_manager w')
       = context_manager._STOP_ON_FAIL (w_context_manager w)
    /\ context_manager.check (w_context_manager w')
       = context_manager.check (w_context_manager w).
Proof.
  unfold pytest_configure. destruct (check_no_tb config);
    eexists; (split; [reflexivity|]); repeat split;
    destruct w as [[] ? ? ?]; reflexivity.
Qed.

(** X25: the values [pytest_configure] stores: under [_stop_on_fail], in
    check_log, check_raises and context_manager alike, whether maxfail is 1;
    under [_default_max_fail] and [_default_max_report] the two options; and
    under [_default_max_tb] the option --check-max-tb, or 0 whenever
    --check-no-tb is given. *)
Theorem pytest_configure_stored_values
    (isatty : bool) (config : Config) (w : world) :
  exists w',
    pytest_configure isatty config w = Some w'
    /\ attrs (w_check_log w') !! "_stop_on_fail"
       = Some (OBool (Z.eqb (maxfail config) 1))
    /\ check_raises.attrs (w_check_raises w') !! "_stop_on_fail"
       = Some (OBool (Z.eqb (maxfail config) 1))
    /\ context_manager.attrs (w_context_manager w') !! "_stop_on_fail"
       = Some (OBool (Z.eqb (maxfail config) 1))
    /\ attrs (w_check_log w') !! "_default_max_fail"
       = Some (of_limit (check_max_fail config))
    /\ attrs (w_check_log w') !! "_default_max_report"
       = Some (of_limit (check_max_report config))
    /\ attrs (w_check_log w') !! "_default_max_tb"
       = Some (if check_no_tb config then OInt 0
               else of_limit (check_max_tb config)).
Proof.
  unfold pytest_configure. destruct (check_no_tb config);
    eexists; (split; [reflexivity|]); simpl;
    repeat split; simplify_map_eq; reflexivity.
Qed.

End PluginCases.
